(** * image-generation-api: the HTTP relay and its two observed variants

    The repository holds two versions of the relay:
    - [src/main.go]: streams from [GenerateContentStream], answers errors
      with [writeError] (a JSON object) and logs upstream failures;
    - [src/unnamed/part_000]: calls [GenerateImages], answers errors with
      [http.Error] (plain text) and always serves [image/png].

    Both are embedded below, function by function, over a small model of
    the Go libraries they call ([encoding/base64], [fmt], [net/http]). *)

From stdpp Require Import base strings gmap list.
From Stdlib Require Import ZArith Ascii DecimalString.

Local Open Scope Z_scope.

(** ** Go values *)

(** [[]byte]. *)
Abbreviation bytes := (list Z).

(** A non-nil Go [error], identified with the text of its [Error()]. *)
Abbreviation error := string.

(** ** encoding/base64

    The decoder of the Go standard library, [Encoding.Decode], read
    quantum by quantum as [decodeQuantum] does.  The 8- and 4-byte fast
    paths of [Decode] accept exactly the quanta made of four alphabet
    characters and fall back to [decodeQuantum] otherwise, so they are not
    modelled apart.  The offset carried by [CorruptInputError] is dropped:
    a failed decoding is [None]. *)
Module base64.

Record Encoding := {
  encode : string;          (* the 64-character alphabet *)
  padChar : option ascii;   (* [None] is [NoPadding] *)
  strict : bool
}.

Definition encodeStd : string :=
  "ABCDEFGHIJKLMNOPQRSTUVWXYZabcdefghijklmnopqrstuvwxyz0123456789+/".
Definition encodeURL : string :=
  "ABCDEFGHIJKLMNOPQRSTUVWXYZabcdefghijklmnopqrstuvwxyz0123456789-_".
Definition StdPadding : ascii := "="%char.

Definition StdEncoding : Encoding :=
  {| encode := encodeStd; padChar := Some StdPadding; strict := false |}.
Definition URLEncoding : Encoding :=
  {| encode := encodeURL; padChar := Some StdPadding; strict := false |}.
Definition RawURLEncoding : Encoding :=
  {| encode := encodeURL; padChar := None; strict := false |}.

(** [decodeMap[c]]: the index of [c] in the alphabet, [0xff] elsewhere. *)
Fixpoint indexFrom (c : ascii) (alphabet : string) (i : Z) : Z :=
  match alphabet with
  | EmptyString => 255
  | String a rest => if Ascii.eqb a c then i else indexFrom c rest (i + 1)
  end.

Definition decodeMap (enc : Encoding) (c : ascii) : Z :=
  indexFrom c (encode enc) 0.

Definition isNewline (c : ascii) : bool :=
  Ascii.eqb c "010"%char || Ascii.eqb c "013"%char.

Definition isPad (enc : Encoding) (c : ascii) : bool :=
  match padChar enc with
  | Some p => Ascii.eqb c p
  | None => false
  end.

(** [for si < len(src) && (src[si] == '\n' || src[si] == '\r') { si++ }] *)
Fixpoint skipNewlines (src : string) : string :=
  match src with
  | String c rest => if isNewline c then skipNewlines rest else src
  | EmptyString => EmptyString
  end.

(** The tail of [decodeQuantum]: [dlen] six-bit digits in [dbuf] become
    [dlen - 1] bytes; in strict mode the unused low bits must be zero. *)
Definition quantum (enc : Encoding) (dbuf : list Z) : option bytes :=
  let d i := nth i dbuf 0 in
  let val := Z.lor (Z.lor (Z.lor (Z.shiftl (d 0%nat) 18) (Z.shiftl (d 1%nat) 12))
                          (Z.shiftl (d 2%nat) 6)) (d 3%nat) in
  let b0 := Z.land (Z.shiftr val 16) 255 in
  let b1 := Z.land (Z.shiftr val 8) 255 in
  let b2 := Z.land val 255 in
  match length dbuf with
  | 4%nat => Some [b0; b1; b2]
  | 3%nat => if strict enc && negb (b2 =? 0) then None else Some [b0; b1]
  | 2%nat => if strict enc && negb ((b1 =? 0) && (b2 =? 0)) then None
             else Some [b0]
  | _ => Some []
  end.

(** After a padding character met with [j] digits in the quantum. *)
Definition padded (enc : Encoding) (rest : string) (dbuf : list Z)
  : option bytes :=
  match length dbuf with
  | 0%nat | 1%nat => None                      (* incorrect padding *)
  | 2%nat =>
      match skipNewlines rest with
      | EmptyString => None                    (* not enough padding *)
      | String c rest' =>
          if isPad enc c then
            match skipNewlines rest' with
            | EmptyString => quantum enc dbuf
            | String _ _ => None               (* trailing garbage *)
            end
          else None                            (* incorrect padding *)
      end
  | _ =>
      match skipNewlines rest with
      | EmptyString => quantum enc dbuf
      | String _ _ => None                     (* trailing garbage *)
      end
  end.

(** [Decode]: [dbuf] holds the digits of the quantum being read. *)
Fixpoint decodeFrom (enc : Encoding) (src : string) (dbuf : list Z)
  : option bytes :=
  match src with
  | EmptyString =>
      match dbuf with
      | [] => Some []
      | [_] => None
      | _ => match padChar enc with
             | Some _ => None
             | None => quantum enc dbuf
             end
      end
  | String c rest =>
      let out := decodeMap enc c in
      if negb (out =? 255) then
        let dbuf' := dbuf ++ [out] in
        if (length dbuf' =? 4)%nat then
          match quantum enc dbuf', decodeFrom enc rest [] with
          | Some b, Some bs => Some (b ++ bs)
          | _, _ => None
          end
        else decodeFrom enc rest dbuf'
      else if isNewline c then decodeFrom enc rest dbuf
      else if isPad enc c then padded enc rest dbuf
      else None
  end.

Definition DecodeString (enc : Encoding) (s : string) : option bytes :=
  decodeFrom enc s [].

End base64.


(** ** fmt

    [Sprintf] for the verbs the relay uses: [%d] on an integer, [%s] on a
    string, [%v] on an error (its text) or on any operand.  A verb without
    operand prints [%!verb(MISSING)] as in Go; a verb applied to an operand
    of another kind is outside the relay's use and prints the marker
    [%!verb(BADVERB)]. *)
Module fmt.

Inductive arg :=
| Int (n : Z)
| Str (s : string)
| Err (e : error).

Definition decimal (n : Z) : string := NilZero.string_of_int (Z.to_int n).

Definition badVerb (verb : ascii) : string :=
  "%!" +:+ String verb "(BADVERB)".

Definition formatArg (verb : ascii) (a : arg) : string :=
  match a with
  | Int n =>
      if Ascii.eqb verb "d"%char || Ascii.eqb verb "v"%char
      then decimal n else badVerb verb
  | Str s =>
      if Ascii.eqb verb "s"%char || Ascii.eqb verb "v"%char
      then s else badVerb verb
  | Err e =>
      if Ascii.eqb verb "s"%char || Ascii.eqb verb "v"%char
      then e else badVerb verb
  end.

Fixpoint Sprintf (format : string) (a : list arg) : string :=
  match format with
  | EmptyString => EmptyString
  | String c rest =>
      if Ascii.eqb c "%"%char then
        match rest with
        | EmptyString => "%!(NOVERB)"
        | String verb rest' =>
            if Ascii.eqb verb "%"%char then String "%"%char (Sprintf rest' a)
            else
              match a with
              | x :: a' => formatArg verb x +:+ Sprintf rest' a'
              | [] => "%!" +:+ String verb "(MISSING)" +:+ Sprintf rest' []
              end
        end
      else String c (Sprintf rest a)
  end.

(** [fmt.Errorf] without operands: an error whose text is the format. *)
Definition Errorf (format : string) : error := Sprintf format [].

End fmt.

(** ** net/http

    A [ResponseWriter] is the header map, the status line once written, and
    what was written to the body.  The chunks keep apart the three writers
    the relay uses: [w.Write] of image bytes, [fmt.Fprintln] of a text line
    (inside [http.Error]) and [json.Encoder.Encode] of a string map. *)
Module http.

Definition MethodPost : string := "POST".
Definition StatusOK : Z := 200.
Definition StatusBadRequest : Z := 400.
Definition StatusMethodNotAllowed : Z := 405.
Definition StatusInternalServerError : Z := 500.

Record Request := { Method : string; Body : string }.

Inductive chunk :=
| Raw (b : bytes)
| Line (s : string)                    (* the text followed by a newline *)
| JSON (m : gmap string string).       (* the encoding of the map, and a newline *)

Record ResponseWriter := {
  Header : gmap string (list string);
  status : option Z;
  body : list chunk
}.

Definition fresh : ResponseWriter :=
  {| Header := ∅; status := None; body := [] |}.

(** [w.Header().Set(key, value)]; the keys the relay sets are canonical. *)
Definition Header_Set (key value : string) (w : ResponseWriter) : ResponseWriter :=
  {| Header := <[key := [value]]> (Header w); status := status w; body := body w |}.

(** [w.Header().Get(key)]: the first value, or the empty string. *)
Definition Header_Get (key : string) (w : ResponseWriter) : string :=
  match Header w !! key with
  | Some (value :: _) => value
  | _ => EmptyString
  end.

Definition Header_Del (key : string) (w : ResponseWriter) : ResponseWriter :=
  {| Header := delete key (Header w); status := status w; body := body w |}.

(** [w.WriteHeader(code)]: only the first call counts. *)
Definition WriteHeader (code : Z) (w : ResponseWriter) : ResponseWriter :=
  match status w with
  | Some _ => w
  | None => {| Header := Header w; status := Some code; body := body w |}
  end.

(** [w.Write]: writes the header with [StatusOK] if none was written. *)
Definition Write (c : chunk) (w : ResponseWriter) : ResponseWriter :=
  let w' := WriteHeader StatusOK w in
  {| Header := Header w'; status := status w'; body := body w' ++ [c] |}.

(** [http.Error(w, error, code)]. *)
Definition Error (error : string) (code : Z) (w : ResponseWriter) : ResponseWriter :=
  Write (Line error)
    (WriteHeader code
       (Header_Set "X-Content-Type-Options" "nosniff"
          (Header_Set "Content-Type" "text/plain; charset=utf-8"
             (Header_Del "Content-Length" w)))).

End http.

(** ** google.golang.org/genai

    The SDK types the relay reads or builds, with the fields it touches.
    A pointer the relay tests against [nil] is an [option]; slices of
    pointers ([Candidates], [Parts], [GeneratedImages]) hold the records
    themselves, as the SDK fills them.  Where Go reuses a name (a field
    called like a type, or the same field in two structs) the field is
    written [Struct_Field]. *)
Module genai.

Record Blob := { Data : bytes; MIMEType : string }.

Record Part := { Text : string; InlineData : option Blob }.

Definition NewPartFromText (text : string) : Part :=
  {| Text := text; InlineData := None |}.

Record Content := { Role : string; Parts : list Part }.

Record Candidate := { Candidate_Content : option Content }.

Record GenerateContentResponse := { Candidates : list Candidate }.

Record ImageConfig := { ImageSize : string }.

Record GenerateContentConfig := {
  ResponseModalities : list string;
  Config_ImageConfig : option ImageConfig
}.

Record Image := { ImageBytes : bytes; Image_MIMEType : string }.

Record GeneratedImage := { GeneratedImage_Image : option Image }.

Record GenerateImagesResponse := { GeneratedImages : list GeneratedImage }.

Record GenerateImagesConfig := { NumberOfImages : Z }.

End genai.

(** ** Request shapes (the same in both variants)

    [Scale] is a Go [int]; the decoder only yields values in its range. *)

Record TextToImageRequest := { Prompt : string }.

Record ResizeRequest := { Resize_ImageBase64 : string; Scale : Z }.

Record SketchToImageRequest := {
  Sketch_ImageBase64 : string;
  Description : string
}.

Record MagicEraserRequest := { Eraser_ImageBase64 : string }.

(** ** What a handler can observe and do

    The libraries whose answers the relay cannot compute are an
    environment: the JSON decoder at each request shape ([None] is a
    decoding error) and the two generation calls of the SDK client.  An
    environment fixes what the API answers to each call while one request
    is served.  What a handler does besides writing to [w] is recorded as a
    trace. *)

Record Env := {
  decodeTextToImage : string -> option TextToImageRequest;
  decodeResize : string -> option ResizeRequest;
  decodeSketchToImage : string -> option SketchToImageRequest;
  decodeMagicEraser : string -> option MagicEraserRequest;
  (* [aiClient.Models.GenerateContentStream]: the items the iterator yields,
     a response or an error each *)
  contentStream : string -> list genai.Content -> genai.GenerateContentConfig ->
                  list (genai.GenerateContentResponse + error);
  (* [aiClient.Models.GenerateImages] *)
  generateImages : string -> string -> genai.GenerateImagesConfig ->
                   genai.GenerateImagesResponse + error
}.

Inductive event :=
| DecodeBody                (* [json.NewDecoder(r.Body).Decode(&req)] *)
| GenerateContentStream (model : string) (contents : list genai.Content)
                        (config : genai.GenerateContentConfig)
| GenerateImages (model prompt : string) (config : genai.GenerateImagesConfig)
| LogPrintf (line : string).

Record state := { w : http.ResponseWriter; trace : list event }.

(** A handler step: [None] once the Go function has executed [return]. *)
Definition handler (A : Type) : Type := state -> option A * state.

#[global] Instance handler_ret : MRet handler := λ A a s, (Some a, s).

#[global] Instance handler_bind : MBind handler := λ A B f m s,
  match m s with
  | (Some a, s') => f a s'
  | (None, s') => (None, s')
  end.

Definition Return {A : Type} : handler A := λ s, (None, s).

Definition emit (e : event) : handler unit :=
  λ s, (Some (), {| w := w s; trace := trace s ++ [e] |}).

Definition onWriter (f : http.ResponseWriter -> http.ResponseWriter) : handler unit :=
  λ s, (Some (), {| w := f (w s); trace := trace s |}).

(** [if cond { ... }] *)
Definition when (cond : bool) (body : handler unit) : handler unit :=
  if cond then body else mret ().

(** [json.NewDecoder(r.Body).Decode(&req)] *)
Definition Decode {T : Type} (unmarshal : string -> option T) (r : http.Request)
  : handler (option T) :=
  emit DecodeBody;; mret (unmarshal (http.Body r)).

Definition isEmpty (s : string) : bool := String.eqb s EmptyString.

(** [_, err := base64.StdEncoding.DecodeString(s); err != nil] *)
Definition base64Fails (s : string) : bool :=
  match base64.DecodeString base64.StdEncoding s with
  | Some _ => false
  | None => true
  end.

(** The state in which [net/http] calls a handler, and the run of one. *)
Definition start : state := {| w := http.fresh; trace := [] |}.

Definition run (h : handler unit) : state := snd (h start).

(** * src/main.go *)
Module Main.

Definition modelName : string := "gemini-3-pro-image-preview".

Definition writeImage (img : bytes) (mimeType : string) : handler unit :=
  let mimeType := if isEmpty mimeType then "image/png" else mimeType in
  onWriter (http.Header_Set "Content-Type" mimeType);;
  onWriter (http.WriteHeader http.StatusOK);;
  onWriter (http.Write (http.Raw img)).

Definition writeError (message : string) (statusCode : Z) : handler unit :=
  onWriter (http.Header_Set "Content-Type" "application/json");;
  onWriter (http.WriteHeader statusCode);;
  onWriter (http.Write (http.JSON {[ "error" := message ]})).

(** [for _, part := range parts]: the first part with inline data. *)
Fixpoint firstInline (parts : list genai.Part) : option (bytes * string) :=
  match parts with
  | [] => None
  | part :: parts' =>
      match genai.InlineData part with
      | Some blob =>
          let mimeType := genai.MIMEType blob in
          let mimeType := if isEmpty mimeType then "image/png" else mimeType in
          Some (genai.Data blob, mimeType)
      | None => firstInline parts'
      end
  end.

(** [for result, err := range ...GenerateContentStream(...)] and the
    [return] after it. *)
Fixpoint firstImage (items : list (genai.GenerateContentResponse + error))
  : bytes * string + error :=
  match items with
  | [] => inr (fmt.Errorf "no image returned")
  | inr err :: _ => inr err
  | inl result :: items' =>
      match genai.Candidates result with
      | [] => firstImage items'
      | candidate :: _ =>
          match genai.Candidate_Content candidate with
          | None => firstImage items'
          | Some content =>
              match genai.Parts content with
              | [] => firstImage items'
              | parts =>
                  match firstInline parts with
                  | Some found => inl found
                  | None => firstImage items'
                  end
              end
          end
      end
  end.

Definition generateSingleImage (env : Env) (prompt : string)
  : handler (bytes * string + error) :=
  let contents :=
    [ {| genai.Role := "user";
         genai.Parts := [ genai.NewPartFromText prompt ] |} ] in
  let config :=
    {| genai.ResponseModalities := [ "IMAGE"; "TEXT" ];
       genai.Config_ImageConfig := Some {| genai.ImageSize := "1K" |} |} in
  emit (GenerateContentStream modelName contents config);;
  mret (firstImage (contentStream env modelName contents config)).

Definition handleTextToImage (env : Env) (r : http.Request) : handler unit :=
  when (negb (String.eqb (http.Method r) http.MethodPost))
    (writeError "POST only" http.StatusMethodNotAllowed;; Return);;
  decoded ← Decode (decodeTextToImage env) r;
  match decoded with
  | None => writeError "invalid body" http.StatusBadRequest;; Return
  | Some req =>
      when (isEmpty (Prompt req))
        (writeError "missing prompt" http.StatusBadRequest;; Return);;
      res ← generateSingleImage env (Prompt req);
      match res with
      | inr err =>
          emit (LogPrintf (fmt.Sprintf "Error generating image: %v" [fmt.Err err]));;
          writeError (fmt.Sprintf "generation error: %v" [fmt.Err err])
            http.StatusInternalServerError;;
          Return
      | inl (imgBytes, mimeType) => writeImage imgBytes mimeType
      end
  end.

Definition handleResize (env : Env) (r : http.Request) : handler unit :=
  when (negb (String.eqb (http.Method r) http.MethodPost))
    (writeError "POST only" http.StatusMethodNotAllowed;; Return);;
  decoded ← Decode (decodeResize env) r;
  match decoded with
  | None => writeError "invalid body" http.StatusBadRequest;; Return
  | Some req =>
      when (isEmpty (Resize_ImageBase64 req))
        (writeError "missing image" http.StatusBadRequest;; Return);;
      when (negb (Scale req =? 2) && negb (Scale req =? 4))
        (writeError "scale must be 2 or 4" http.StatusBadRequest;; Return);;
      when (base64Fails (Resize_ImageBase64 req))
        (writeError "invalid base64" http.StatusBadRequest;; Return);;
      let prompt :=
        fmt.Sprintf "Resize this image by x%d preserving details."
          [fmt.Int (Scale req)] in
      res ← generateSingleImage env prompt;
      match res with
      | inr err =>
          emit (LogPrintf (fmt.Sprintf "Error resizing image: %v" [fmt.Err err]));;
          writeError (fmt.Sprintf "resize error: %v" [fmt.Err err])
            http.StatusInternalServerError;;
          Return
      | inl (imgBytes, mimeType) => writeImage imgBytes mimeType
      end
  end.

Definition handleSketchToImage (env : Env) (r : http.Request) : handler unit :=
  when (negb (String.eqb (http.Method r) http.MethodPost))
    (writeError "POST only" http.StatusMethodNotAllowed;; Return);;
  decoded ← Decode (decodeSketchToImage env) r;
  match decoded with
  | None => writeError "invalid body" http.StatusBadRequest;; Return
  | Some req =>
      when (isEmpty (Sketch_ImageBase64 req) || isEmpty (Description req))
        (writeError "missing fields" http.StatusBadRequest;; Return);;
      when (base64Fails (Sketch_ImageBase64 req))
        (writeError "invalid base64" http.StatusBadRequest;; Return);;
      let prompt :=
        fmt.Sprintf "Interpret this sketch as '%s'." [fmt.Str (Description req)] in
      res ← generateSingleImage env prompt;
      match res with
      | inr err =>
          emit (LogPrintf
                  (fmt.Sprintf "Error converting sketch to image: %v" [fmt.Err err]));;
          writeError (fmt.Sprintf "sketch error: %v" [fmt.Err err])
            http.StatusInternalServerError;;
          Return
      | inl (imgBytes, mimeType) => writeImage imgBytes mimeType
      end
  end.

Definition handleMagicEraser (env : Env) (r : http.Request) : handler unit :=
  when (negb (String.eqb (http.Method r) http.MethodPost))
    (writeError "POST only" http.StatusMethodNotAllowed;; Return);;
  decoded ← Decode (decodeMagicEraser env) r;
  match decoded with
  | None => writeError "invalid body" http.StatusBadRequest;; Return
  | Some req =>
      when (isEmpty (Eraser_ImageBase64 req))
        (writeError "missing image" http.StatusBadRequest;; Return);;
      when (base64Fails (Eraser_ImageBase64 req))
        (writeError "invalid base64" http.StatusBadRequest;; Return);;
      let prompt := "Remove the pink masked area and reconstruct the background." in
      res ← generateSingleImage env prompt;
      match res with
      | inr err =>
          emit (LogPrintf (fmt.Sprintf "Error with magic eraser: %v" [fmt.Err err]));;
          writeError (fmt.Sprintf "eraser error: %v" [fmt.Err err])
            http.StatusInternalServerError;;
          Return
      | inl (imgBytes, mimeType) => writeImage imgBytes mimeType
      end
  end.

End Main.

(** * src/unnamed/part_000 *)
Module Variant.

Definition modelName : string := "imagen-4.0-generate-001".

Definition writeImagePNG (img : bytes) : handler unit :=
  onWriter (http.Header_Set "Content-Type" "image/png");;
  onWriter (http.WriteHeader http.StatusOK);;
  onWriter (http.Write (http.Raw img)).

Definition generateSingleImage (env : Env) (prompt : string)
  : handler (bytes + error) :=
  let cfg := {| genai.NumberOfImages := 1 |} in
  emit (GenerateImages modelName prompt cfg);;
  match generateImages env modelName prompt cfg with
  | inr err => mret (inr err)
  | inl resp =>
      match genai.GeneratedImages resp with
      | [] => mret (inr (fmt.Errorf "no image returned"))
      | first :: _ =>
          match genai.GeneratedImage_Image first with
          | None => mret (inr (fmt.Errorf "no image returned"))
          | Some image => mret (inl (genai.ImageBytes image))
          end
      end
  end.

Definition handleTextToImage (env : Env) (r : http.Request) : handler unit :=
  when (negb (String.eqb (http.Method r) http.MethodPost))
    (onWriter (http.Error "POST only" http.StatusMethodNotAllowed);; Return);;
  decoded ← Decode (decodeTextToImage env) r;
  match decoded with
  | None => onWriter (http.Error "invalid body" http.StatusBadRequest);; Return
  | Some req =>
      when (isEmpty (Prompt req))
        (onWriter (http.Error "missing prompt" http.StatusBadRequest);; Return);;
      res ← generateSingleImage env (Prompt req);
      match res with
      | inr err =>
          onWriter (http.Error "generation error" http.StatusInternalServerError);;
          Return
      | inl imgBytes => writeImagePNG imgBytes
      end
  end.

Definition handleResize (env : Env) (r : http.Request) : handler unit :=
  when (negb (String.eqb (http.Method r) http.MethodPost))
    (onWriter (http.Error "POST only" http.StatusMethodNotAllowed);; Return);;
  decoded ← Decode (decodeResize env) r;
  match decoded with
  | None => onWriter (http.Error "invalid body" http.StatusBadRequest);; Return
  | Some req =>
      when (isEmpty (Resize_ImageBase64 req))
        (onWriter (http.Error "missing image" http.StatusBadRequest);; Return);;
      when (negb (Scale req =? 2) && negb (Scale req =? 4))
        (onWriter (http.Error "scale must be 2 or 4" http.StatusBadRequest);; Return);;
      when (base64Fails (Resize_ImageBase64 req))
        (onWriter (http.Error "invalid base64" http.StatusBadRequest);; Return);;
      let prompt :=
        fmt.Sprintf "Resize this image by x%d preserving details."
          [fmt.Int (Scale req)] in
      res ← generateSingleImage env prompt;
      match res with
      | inr err =>
          onWriter (http.Error "resize error" http.StatusInternalServerError);;
          Return
      | inl imgBytes => writeImagePNG imgBytes
      end
  end.

Definition handleSketchToImage (env : Env) (r : http.Request) : handler unit :=
  when (negb (String.eqb (http.Method r) http.MethodPost))
    (onWriter (http.Error "POST only" http.StatusMethodNotAllowed);; Return);;
  decoded ← Decode (decodeSketchToImage env) r;
  match decoded with
  | None => onWriter (http.Error "invalid body" http.StatusBadRequest);; Return
  | Some req =>
      when (isEmpty (Sketch_ImageBase64 req) || isEmpty (Description req))
        (onWriter (http.Error "missing fields" http.StatusBadRequest);; Return);;
      when (base64Fails (Sketch_ImageBase64 req))
        (onWriter (http.Error "invalid base64" http.StatusBadRequest);; Return);;
      let prompt :=
        fmt.Sprintf "Sketch to Image: interpret this sketch as '%s'."
          [fmt.Str (Description req)] in
      res ← generateSingleImage env prompt;
      match res with
      | inr err =>
          onWriter (http.Error "sketch error" http.StatusInternalServerError);;
          Return
      | inl imgBytes => writeImagePNG imgBytes
      end
  end.

Definition handleMagicEraser (env : Env) (r : http.Request) : handler unit :=
  when (negb (String.eqb (http.Method r) http.MethodPost))
    (onWriter (http.Error "POST only" http.StatusMethodNotAllowed);; Return);;
  decoded ← Decode (decodeMagicEraser env) r;
  match decoded with
  | None => onWriter (http.Error "invalid body" http.StatusBadRequest);; Return
  | Some req =>
      when (isEmpty (Eraser_ImageBase64 req))
        (onWriter (http.Error "missing image" http.StatusBadRequest);; Return);;
      when (base64Fails (Eraser_ImageBase64 req))
        (onWriter (http.Error "invalid base64" http.StatusBadRequest);; Return);;
      let prompt :=
        "Magic eraser: remove the pink masked area and reconstruct background." in
      res ← generateSingleImage env prompt;
      match res with
      | inr err =>
          onWriter (http.Error "eraser error" http.StatusInternalServerError);;
          Return
      | inl imgBytes => writeImagePNG imgBytes
      end
  end.

End Variant.

(** ** The routes registered in [main] *)

Inductive endpoint := TextToImage | Resize | SketchToImage | MagicEraser.

Inductive variant := MainGo | Part000.

Definition route (v : variant) (ep : endpoint) : Env -> http.Request -> handler unit :=
  match v, ep with
  | MainGo, TextToImage => Main.handleTextToImage
  | MainGo, Resize => Main.handleResize
  | MainGo, SketchToImage => Main.handleSketchToImage
  | MainGo, MagicEraser => Main.handleMagicEraser
  | Part000, TextToImage => Variant.handleTextToImage
  | Part000, Resize => Variant.handleResize
  | Part000, SketchToImage => Variant.handleSketchToImage
  | Part000, MagicEraser => Variant.handleMagicEraser
  end.

(** One request served: the response written and the trace left. *)
Definition serve (v : variant) (env : Env) (ep : endpoint) (r : http.Request) : state :=
  run (route v ep env r).

(** ** What the client and the operator see *)

Definition statusOf (st : state) : option Z := http.status (w st).

Definition contentType (st : state) : string := http.Header_Get "Content-Type" (w st).

Definition bodyOf (st : state) : list http.chunk := http.body (w st).

Definition isUpstream (e : event) : bool :=
  match e with
  | GenerateContentStream _ _ _ | GenerateImages _ _ _ => true
  | _ => false
  end.

(** The calls made to the generation API, in order. *)
Fixpoint callsIn (t : list event) : list event :=
  match t with
  | [] => []
  | e :: t' => if isUpstream e then e :: callsIn t' else callsIn t'
  end.

Definition upstreamCalls (st : state) : list event := callsIn (trace st).

(** The lines handed to [log.Printf]. *)
Fixpoint logLines (t : list event) : list string :=
  match t with
  | [] => []
  | LogPrintf line :: t' => line :: logLines t'
  | _ :: t' => logLines t'
  end.

(** Every inline blob a call carries to the API.  [GenerateImages] takes a
    prompt string only. *)
Definition inlineSent (e : event) : list genai.Blob :=
  match e with
  | GenerateContentStream _ contents _ =>
      omap genai.InlineData (contents ≫= genai.Parts)
  | _ => []
  end.

(** The text a call carries to the API. *)
Definition textSent (e : event) : list string :=
  match e with
  | GenerateContentStream _ contents _ => genai.Text <$> (contents ≫= genai.Parts)
  | GenerateImages _ prompt _ => [prompt]
  | _ => []
  end.

(** The two response shapes of the specification, and the plain-text
    error of [http.Error]. *)
Definition imageShape (st : state) (img : bytes) (mime : string) : Prop :=
  statusOf st = Some 200 ∧ contentType st = mime ∧ bodyOf st = [http.Raw img].

Definition jsonErrorShape (st : state) (code : Z) (message : string) : Prop :=
  statusOf st = Some code ∧ contentType st = "application/json"
  ∧ bodyOf st = [http.JSON {[ "error" := message ]}].

Definition textErrorShape (st : state) (code : Z) (message : string) : Prop :=
  statusOf st = Some code ∧ contentType st = "text/plain; charset=utf-8"
  ∧ bodyOf st = [http.Line message].

Definition errorShape (v : variant) : state -> Z -> string -> Prop :=
  match v with
  | MainGo => jsonErrorShape
  | Part000 => textErrorShape
  end.


(** ** The relay as the specification tells it

    Section 4.1 of the specification: validate, synthesise one prompt, call
    the API once, answer.  [relay] follows those words; [serve_relay] below
    shows that the handlers of both files compute it. *)

Inductive payload :=
| OfText (q : TextToImageRequest)
| OfResize (q : ResizeRequest)
| OfSketch (q : SketchToImageRequest)
| OfEraser (q : MagicEraserRequest).

Definition decodeAt (env : Env) (ep : endpoint) (body : string) : option payload :=
  match ep with
  | TextToImage => OfText <$> decodeTextToImage env body
  | Resize => OfResize <$> decodeResize env body
  | SketchToImage => OfSketch <$> decodeSketchToImage env body
  | MagicEraser => OfEraser <$> decodeMagicEraser env body
  end.

(** The base64 image field, where the shape has one. *)
Definition imageOf (q : payload) : option string :=
  match q with
  | OfText _ => None
  | OfResize q => Some (Resize_ImageBase64 q)
  | OfSketch q => Some (Sketch_ImageBase64 q)
  | OfEraser q => Some (Eraser_ImageBase64 q)
  end.

Definition setImage (img : string) (q : payload) : payload :=
  match q with
  | OfText q => OfText q
  | OfResize q => OfResize {| Resize_ImageBase64 := img; Scale := Scale q |}
  | OfSketch q => OfSketch {| Sketch_ImageBase64 := img; Description := Description q |}
  | OfEraser _ => OfEraser {| Eraser_ImageBase64 := img |}
  end.

(** The checks that come before the base64 one: the message of the first
    that fails. *)
Definition fieldRejection (q : payload) : option string :=
  match q with
  | OfText q => if isEmpty (Prompt q) then Some "missing prompt" else None
  | OfResize q =>
      if isEmpty (Resize_ImageBase64 q) then Some "missing image"
      else if negb (Scale q =? 2) && negb (Scale q =? 4) then Some "scale must be 2 or 4"
      else None
  | OfSketch q =>
      if isEmpty (Sketch_ImageBase64 q) || isEmpty (Description q)
      then Some "missing fields" else None
  | OfEraser q => if isEmpty (Eraser_ImageBase64 q) then Some "missing image" else None
  end.

Definition rejection (q : payload) : option string :=
  match fieldRejection q with
  | Some message => Some message
  | None =>
      match imageOf q with
      | Some img => if base64Fails img then Some "invalid base64" else None
      | None => None
      end
  end.

Definition promptFor (v : variant) (q : payload) : string :=
  match q with
  | OfText q => Prompt q
  | OfResize q =>
      "Resize this image by x" +:+ fmt.decimal (Scale q) +:+ " preserving details."
  | OfSketch q =>
      match v with
      | MainGo => "Interpret this sketch as '" +:+ Description q +:+ "'."
      | Part000 =>
          "Sketch to Image: interpret this sketch as '" +:+ Description q +:+ "'."
      end
  | OfEraser _ =>
      match v with
      | MainGo => "Remove the pink masked area and reconstruct the background."
      | Part000 => "Magic eraser: remove the pink masked area and reconstruct background."
      end
  end.

(** The one call a variant makes for a prompt. *)
Definition upstreamCall (v : variant) (prompt : string) : event :=
  match v with
  | MainGo =>
      GenerateContentStream Main.modelName
        [ {| genai.Role := "user"; genai.Parts := [ genai.NewPartFromText prompt ] |} ]
        {| genai.ResponseModalities := [ "IMAGE"; "TEXT" ];
           genai.Config_ImageConfig := Some {| genai.ImageSize := "1K" |} |}
  | Part000 => GenerateImages Variant.modelName prompt {| genai.NumberOfImages := 1 |}
  end.

(** What [generateSingleImage] returns: the image and the content type it
    is served with, or the error. *)
Definition generated (v : variant) (env : Env) (prompt : string) : bytes * string + error :=
  match v with
  | MainGo =>
      match fst (Main.generateSingleImage env prompt start) with
      | Some (inl (img, mime)) => inl (img, if isEmpty mime then "image/png" else mime)
      | Some (inr err) => inr err
      | None => inr EmptyString
      end
  | Part000 =>
      match fst (Variant.generateSingleImage env prompt start) with
      | Some (inl img) => inl (img, "image/png")
      | Some (inr err) => inr err
      | None => inr EmptyString
      end
  end.

Definition operation (ep : endpoint) : string :=
  match ep with
  | TextToImage => "generation"
  | Resize => "resize"
  | SketchToImage => "sketch"
  | MagicEraser => "eraser"
  end.

Definition logPrefix (ep : endpoint) : string :=
  match ep with
  | TextToImage => "Error generating image: "
  | Resize => "Error resizing image: "
  | SketchToImage => "Error converting sketch to image: "
  | MagicEraser => "Error with magic eraser: "
  end.

(** The message of a 500 answer and the log line that goes with it. *)
Definition failureMessage (v : variant) (ep : endpoint) (err : error) : string :=
  match v with
  | MainGo => operation ep +:+ " error: " +:+ err
  | Part000 => operation ep +:+ " error"
  end.

Definition failureLog (v : variant) (ep : endpoint) (err : error) : list event :=
  match v with
  | MainGo => [LogPrintf (logPrefix ep +:+ err)]
  | Part000 => []
  end.

Definition errorWriter (v : variant) (message : string) (code : Z) : http.ResponseWriter :=
  match v with
  | MainGo =>
      http.Write (http.JSON {[ "error" := message ]})
        (http.WriteHeader code
           (http.Header_Set "Content-Type" "application/json" http.fresh))
  | Part000 => http.Error message code http.fresh
  end.

Definition imageWriter (img : bytes) (mime : string) : http.ResponseWriter :=
  http.Write (http.Raw img)
    (http.WriteHeader http.StatusOK (http.Header_Set "Content-Type" mime http.fresh)).

Definition relay (v : variant) (env : Env) (ep : endpoint) (r : http.Request) : state :=
  if negb (String.eqb (http.Method r) http.MethodPost) then
    {| w := errorWriter v "POST only" 405; trace := [] |}
  else
    match decodeAt env ep (http.Body r) with
    | None => {| w := errorWriter v "invalid body" 400; trace := [DecodeBody] |}
    | Some q =>
        match rejection q with
        | Some message => {| w := errorWriter v message 400; trace := [DecodeBody] |}
        | None =>
            let prompt := promptFor v q in
            match generated v env prompt with
            | inl (img, mime) =>
                {| w := imageWriter img mime;
                   trace := [DecodeBody; upstreamCall v prompt] |}
            | inr err =>
                {| w := errorWriter v (failureMessage v ep err) 500;
                   trace := [DecodeBody; upstreamCall v prompt] ++ failureLog v ep err |}
            end
        end
    end.

(** ** Sample inputs

    A decoder that answers every body with the same decoded request (or
    with a failure), and an API that answers every call alike. *)

Definition sampleEnv (text : option TextToImageRequest) (resize : option ResizeRequest)
    (sketch : option SketchToImageRequest) (eraser : option MagicEraserRequest)
    (items : list (genai.GenerateContentResponse + error))
    (images : genai.GenerateImagesResponse + error) : Env :=
  {| decodeTextToImage := λ _, text;
     decodeResize := λ _, resize;
     decodeSketchToImage := λ _, sketch;
     decodeMagicEraser := λ _, eraser;
     contentStream := λ _ _ _, items;
     generateImages := λ _ _ _, images |}.

(** A one-pixel PNG header, base64: a well-formed image field. *)
Definition sampleImage : string := "iVBORw0KGgo=".

Definition sampleBlob : genai.Blob :=
  {| genai.Data := [137; 80; 78; 71]; genai.MIMEType := "image/jpeg" |}.

(** One chunk whose first candidate carries [sampleBlob] after a text part. *)
Definition sampleChunk : genai.GenerateContentResponse :=
  {| genai.Candidates :=
       [ {| genai.Candidate_Content :=
              Some {| genai.Role := "model";
                      genai.Parts := [ genai.NewPartFromText "here it is";
                                       {| genai.Text := EmptyString;
                                          genai.InlineData := Some sampleBlob |} ] |} |} ] |}.

(** A chunk of text only. *)
Definition textChunk : genai.GenerateContentResponse :=
  {| genai.Candidates :=
       [ {| genai.Candidate_Content :=
              Some {| genai.Role := "model";
                      genai.Parts := [ genai.NewPartFromText "thinking" ] |} |} ] |}.

Definition sampleImages : genai.GenerateImagesResponse :=
  {| genai.GeneratedImages :=
       [ {| genai.GeneratedImage_Image :=
              Some {| genai.ImageBytes := [255; 216; 255];
                      genai.Image_MIMEType := "image/jpeg" |} |} ] |}.

(** An API that works, one that returns nothing, one that fails. *)
Definition workingEnv : Env :=
  sampleEnv (Some {| Prompt := "a cat" |})
    (Some {| Resize_ImageBase64 := sampleImage; Scale := 4 |})
    (Some {| Sketch_ImageBase64 := sampleImage; Description := "a cat" |})
    (Some {| Eraser_ImageBase64 := sampleImage |})
    [inl textChunk; inl sampleChunk] (inl sampleImages).

Definition emptyEnv : Env :=
  sampleEnv (Some {| Prompt := "a cat" |})
    (Some {| Resize_ImageBase64 := sampleImage; Scale := 4 |})
    (Some {| Sketch_ImageBase64 := sampleImage; Description := "a cat" |})
    (Some {| Eraser_ImageBase64 := sampleImage |})
    [inl textChunk] (inl {| genai.GeneratedImages := [] |}).

Definition upstreamDetail : error :=
  "Error 403, Message: API key AIza-123 not valid, Status: PERMISSION_DENIED".

Definition failingEnv : Env :=
  sampleEnv (Some {| Prompt := "a cat" |})
    (Some {| Resize_ImageBase64 := sampleImage; Scale := 4 |})
    (Some {| Sketch_ImageBase64 := sampleImage; Description := "a cat" |})
    (Some {| Eraser_ImageBase64 := sampleImage |})
    [inr upstreamDetail] (inr upstreamDetail).

Definition post (body : string) : http.Request :=
  {| http.Method := "POST"; http.Body := body |}.

Definition get : http.Request := {| http.Method := "GET"; http.Body := EmptyString |}.

(** ** The reasons to refuse a request, in the words of the specification *)





(** A request that passes every check, with what its body decodes to. *)
Definition validRequest (env : Env) (ep : endpoint) (r : http.Request) (q : payload) : Prop :=
  http.Method r = http.MethodPost
  ∧ decodeAt env ep (http.Body r) = Some q
  ∧ rejection q = None.

(** ** Base64 strings that the standard alphabet refuses *)

Fixpoint occurs (c : ascii) (s : string) : bool :=
  match s with
  | EmptyString => false
  | String a rest => Ascii.eqb a c || occurs c rest
  end.

Fixpoint count (p : ascii → bool) (s : string) : nat :=
  match s with
  | EmptyString => 0
  | String a rest => ((if p a then 1 else 0) + count p rest)%nat
  end.

(** The alphabet characters and the padding characters of a string. *)
Definition digits (enc : base64.Encoding) (s : string) : nat :=
  count (λ c, negb (base64.decodeMap enc c =? 255)) s.

Definition pads (enc : base64.Encoding) (s : string) : nat :=
  count (base64.isPad enc) s.

(** The padding a padded encoding asks after [d] alphabet characters. *)
Definition requiredPadding (d : nat) : nat :=
  match (d `mod` 4)%nat with
  | 2%nat => 2
  | 3%nat => 1
  | _ => 0
  end.

(** Alphabet, padding and line breaks do not overlap. *)
Definition separated (enc : base64.Encoding) : Prop :=
  (∀ c, base64.isNewline c = true →
        base64.decodeMap enc c = 255 ∧ base64.isPad enc c = false)
  ∧ (∀ c, base64.isPad enc c = true → base64.decodeMap enc c = 255).

(** A character the decoder of [enc] has no use for. *)
Definition foreign (enc : base64.Encoding) (c : ascii) : Prop :=
  base64.decodeMap enc c = 255
  ∧ base64.isNewline c = false
  ∧ base64.isPad enc c = false.

(** The string holds one of the two characters proper to base64url. *)
Definition urlSafeChar (s : string) : Prop :=
  occurs "-"%char s = true ∨ occurs "_"%char s = true.

(** The string has fewer [=] than its alphabet characters ask for. *)
Definition lacksPadding (s : string) : Prop :=
  (pads base64.StdEncoding s < requiredPadding (digits base64.StdEncoding s))%nat.

(** ** What the generation API answers *)

(** The answer of the API to a call found in a trace. *)
Definition streamOf (env : Env) (e : event) : list (genai.GenerateContentResponse + error) :=
  match e with
  | GenerateContentStream model contents config => contentStream env model contents config
  | _ => []
  end.

Definition imagesOf (env : Env) (e : event) : option (genai.GenerateImagesResponse + error) :=
  match e with
  | GenerateImages model prompt config => Some (generateImages env model prompt config)
  | _ => None
  end.

Definition noInline (parts : list genai.Part) : Prop :=
  Forall (λ part, genai.InlineData part = None) parts.

(** A chunk in whose first candidate no part carries inline data. *)
Definition chunkWithoutImage (result : genai.GenerateContentResponse) : Prop :=
  ∀ candidate content,
    head (genai.Candidates result) = Some candidate →
    genai.Candidate_Content candidate = Some content →
    noInline (genai.Parts content).

(** The stream yields chunks only, none with an image. *)
Definition streamWithoutImage (items : list (genai.GenerateContentResponse + error)) : Prop :=
  Forall (λ item, ∃ result, item = inl result ∧ chunkWithoutImage result) items.

(** The call succeeds and brings no image. *)
Definition returnsNoImage (v : variant) (env : Env) (prompt : string) : Prop :=
  match v with
  | MainGo => streamWithoutImage (streamOf env (upstreamCall MainGo prompt))
  | Part000 =>
      ∃ resp, imagesOf env (upstreamCall Part000 prompt) = Some (inl resp)
        ∧ (genai.GeneratedImages resp = []
           ∨ ∃ first, head (genai.GeneratedImages resp) = Some first
               ∧ genai.GeneratedImage_Image first = None)
  end.

(** The first image payload the API returns is [img], declared as [mime]. *)
Definition firstPayload (v : variant) (env : Env) (prompt : string)
    (img : bytes) (mime : string) : Prop :=
  match v with
  | MainGo =>
      ∃ before result after candidate content parts part parts' blob,
        streamOf env (upstreamCall MainGo prompt) = before ++ inl result :: after
        ∧ streamWithoutImage before
        ∧ head (genai.Candidates result) = Some candidate
        ∧ genai.Candidate_Content candidate = Some content
        ∧ genai.Parts content = parts ++ part :: parts'
        ∧ noInline parts
        ∧ genai.InlineData part = Some blob
        ∧ genai.Data blob = img ∧ genai.MIMEType blob = mime
  | Part000 =>
      ∃ resp first image,
        imagesOf env (upstreamCall Part000 prompt) = Some (inl resp)
        ∧ head (genai.GeneratedImages resp) = Some first
        ∧ genai.GeneratedImage_Image first = Some image
        ∧ genai.ImageBytes image = img ∧ genai.Image_MIMEType image = mime
  end.

(** The prompts handed to the API while a request was served. *)
Definition promptsSent (st : state) : list string := upstreamCalls st ≫= textSent.

(** [detail] can be read in [message]. *)
Definition leaks (detail message : string) : Prop :=
  ∃ before after, message = before +:+ detail +:+ after.

(** Requests that must be refused: an empty prompt, a scale of 3 with an
    image that is not base64, an unpadded image, a base64url image. *)
Definition oddEnv : Env :=
  sampleEnv (Some {| Prompt := EmptyString |})
    (Some {| Resize_ImageBase64 := "not base64!"; Scale := 3 |})
    (Some {| Sketch_ImageBase64 := "aGVsbG8"; Description := "a cat" |})
    (Some {| Eraser_ImageBase64 := "-_-_" |})
    [] (inl {| genai.GeneratedImages := [] |}).

(** ** Line breaks in an image field *)

(** The string without its CR and LF. *)
Fixpoint strip (s : string) : string :=
  match s with
  | EmptyString => EmptyString
  | String a rest =>
      if base64.isNewline a then strip rest else String a (strip rest)
  end.

Definition allNewlines (s : string) : Prop :=
  ∀ c, occurs c s = true → base64.isNewline c = true.

(** ** Candidates after the first *)

(** The item with every candidate but the first dropped. *)
Definition firstCandidateOnly (item : genai.GenerateContentResponse + error)
  : genai.GenerateContentResponse + error :=
  match item with
  | inl result =>
      inl {| genai.Candidates :=
               match genai.Candidates result with
               | [] => []
               | candidate :: _ => [candidate]
               end |}
  | inr err => inr err
  end.

(** ** The process: what [main] reads and what it starts

    [main] reads the environment, makes the SDK client and starts the
    server.  What it cannot compute is a [Process]: the variables (as
    [os.Getenv] sees them once [godotenv.Load] has run), the errors of
    [godotenv.Load] and [genai.NewClient] if any, and [fmt.Sscanf] of a
    string under [%d] into an [int64].  [log.Fatal] ends the process: what
    comes after it in [main] does not run. *)

Record Process := {
  dotenvLoad : option error;
  Getenv : string → string;
  NewClient : option error;
  Sscanf_d : string → option Z
}.

(** [http.Server], with the handler as the routes and the body limit put
    around them ([None]: no [MaxBytesHandler]); a zero field is unset. *)
Record Server := {
  Addr : string;
  MaxBytes : option Z;
  ReadTimeout : Z;
  WriteTimeout : Z;
  MaxHeaderBytes : Z
}.

Inductive startup :=
| Fatal (line : string)
| ListenAndServe (routes : list (string * endpoint)) (server : Server).

Record boot := { logged : list string; result : startup }.

(** Arithmetic on [int64] wraps around. *)
Definition wrap64 (z : Z) : Z := (z + 2 ^ 63) `mod` 2 ^ 64 - 2 ^ 63.

(** The four [http.HandleFunc] calls, in order. *)
Definition registered : list (string * endpoint) :=
  [ ("/text-to-image", TextToImage);
    ("/resize", Resize);
    ("/sketch-to-image", SketchToImage);
    ("/magic-eraser", MagicEraser) ].

(** [main] of src/main.go *)
Module MainProcess.

Definition maxBodySize (p : Process) : Z :=
  let maxBodySize := 100 * 1024 * 1024 in
  let maxBodySizeEnv := Getenv p "MAX_BODY_SIZE_MB" in
  if negb (isEmpty maxBodySizeEnv) then
    match Sscanf_d p maxBodySizeEnv with
    | Some mb => wrap64 (wrap64 (mb * 1024) * 1024)
    | None => maxBodySize
    end
  else maxBodySize.

Definition main (p : Process) : boot :=
  let warned :=
    match dotenvLoad p with
    | Some err =>
        [fmt.Sprintf "Warning: No se pudo cargar el archivo .env: %v" [fmt.Err err]]
    | None => []
    end in
  let apiKey := Getenv p "GOOGLE_API_KEY" in
  if isEmpty apiKey then
    {| logged := warned;
       result := Fatal "Error: GOOGLE_API_KEY no está configurada. Por favor, configura la variable de entorno o crea un archivo .env" |}
  else
    match NewClient p with
    | Some err =>
        {| logged := warned;
           result := Fatal (fmt.Sprintf "client error: %v" [fmt.Err err]) |}
    | None =>
        let port := Getenv p "PORT" in
        let port := if isEmpty port then "8080" else port in
        let maxBodySize := maxBodySize p in
        let server :=
          {| Addr := ":" +:+ port;
             MaxBytes := Some maxBodySize;
             ReadTimeout := 30 * 60 * 1000000000;
             WriteTimeout := 30 * 60 * 1000000000;
             MaxHeaderBytes := Z.shiftl 1 20 |} in
        {| logged :=
             warned ++
             [fmt.Sprintf "API listening on :%s (Max body size: %d MB)"
                [fmt.Str port; fmt.Int (Z.quot maxBodySize (1024 * 1024))]];
           result := ListenAndServe registered server |}
    end.

End MainProcess.

(** [main] of src/unnamed/part_000 *)
Module VariantProcess.

Definition main (p : Process) : boot :=
  match NewClient p with
  | Some err =>
      {| logged := []; result := Fatal (fmt.Sprintf "client error: %v" [fmt.Err err]) |}
  | None =>
      let port := Getenv p "PORT" in
      let port := if isEmpty port then "8080" else port in
      {| logged := [fmt.Sprintf "API listening on :%s" [fmt.Str port]];
         result :=
           ListenAndServe registered
             {| Addr := ":" +:+ port; MaxBytes := None; ReadTimeout := 0;
                WriteTimeout := 0; MaxHeaderBytes := 0 |} |}
  end.

End VariantProcess.

(** A process with the given variables, whose client is made without
    error and whose [Sscanf] reads [size] from any string. *)
Definition sampleProcess (key port limit : string) (size : option Z) : Process :=
  {| dotenvLoad := Some "open .env: no such file or directory";
     Getenv := λ name,
       if String.eqb name "GOOGLE_API_KEY" then key
       else if String.eqb name "PORT" then port
       else if String.eqb name "MAX_BODY_SIZE_MB" then limit
       else EmptyString;
     NewClient := None;
     Sscanf_d := λ _, size |}.

(** A decoder that hands the body over as the image or the prompt, with a
    scale of 2 and the description [a cat]. *)
Definition bodyEnv (items : list (genai.GenerateContentResponse + error))
    (images : genai.GenerateImagesResponse + error) : Env :=
  {| decodeTextToImage := λ body, Some {| Prompt := body |};
     decodeResize := λ body, Some {| Resize_ImageBase64 := body; Scale := 2 |};
     decodeSketchToImage := λ body,
       Some {| Sketch_ImageBase64 := body; Description := "a cat" |};
     decodeMagicEraser := λ body, Some {| Eraser_ImageBase64 := body |};
     contentStream := λ _ _ _, items;
     generateImages := λ _ _ _, images |}.

(** * Theorems *)

(** ** Strings and [fmt] *)

Lemma app_empty_r (s : string) : s +:+ EmptyString = s.
Proof.
  induction s as [|c s IH]; [done |].
  change (String c (s +:+ EmptyString) = String c s). by rewrite IH.
Qed.

Example Sprintf_resize_4 :
  fmt.Sprintf "Resize this image by x%d preserving details." [fmt.Int 4]
  = "Resize this image by x4 preserving details.".
Proof. reflexivity. Qed.

Lemma Sprintf_resize n :
  fmt.Sprintf "Resize this image by x%d preserving details." [fmt.Int n]
  = "Resize this image by x" +:+ fmt.decimal n +:+ " preserving details.".
Proof. reflexivity. Qed.

Lemma Sprintf_sketch_main d :
  fmt.Sprintf "Interpret this sketch as '%s'." [fmt.Str d]
  = "Interpret this sketch as '" +:+ d +:+ "'.".
Proof. reflexivity. Qed.

Lemma Sprintf_sketch_variant d :
  fmt.Sprintf "Sketch to Image: interpret this sketch as '%s'." [fmt.Str d]
  = "Sketch to Image: interpret this sketch as '" +:+ d +:+ "'.".
Proof. reflexivity. Qed.

Lemma Sprintf_failure ep err :
  fmt.Sprintf (operation ep +:+ " error: %v") [fmt.Err err]
  = failureMessage MainGo ep err.
Proof.
  destruct ep; cbv [failureMessage operation String.append];
    cbv -[String.append]; by rewrite app_empty_r.
Qed.

Lemma Sprintf_log ep err :
  fmt.Sprintf (logPrefix ep +:+ "%v") [fmt.Err err] = logPrefix ep +:+ err.
Proof.
  destruct ep; cbv [logPrefix String.append];
    cbv -[String.append]; by rewrite app_empty_r.
Qed.

(** ** The handlers compute the relay *)

Ltac step :=
  cbv beta iota zeta delta
    [serve route run relay decodeAt rejection fieldRejection imageOf generated promptFor
     Main.handleTextToImage Main.handleResize Main.handleSketchToImage
     Main.handleMagicEraser
     Variant.handleTextToImage Variant.handleResize Variant.handleSketchToImage
     Variant.handleMagicEraser
     Main.generateSingleImage Variant.generateSingleImage
     Main.writeError Main.writeImage Variant.writeImagePNG
     mbind mret handler_bind handler_ret Return emit onWriter when Decode
     fmap option_fmap option_map fst snd negb andb orb start w trace].

Ltac messages :=
  rewrite ?(Sprintf_failure TextToImage), ?(Sprintf_failure Resize),
    ?(Sprintf_failure SketchToImage), ?(Sprintf_failure MagicEraser),
    ?(Sprintf_log TextToImage), ?(Sprintf_log Resize),
    ?(Sprintf_log SketchToImage), ?(Sprintf_log MagicEraser),
    ?Sprintf_resize, ?Sprintf_sketch_main, ?Sprintf_sketch_variant.

(** The next test a handler makes, in the order the handlers make them. *)
Ltac pick :=
  match goal with
  | |- context [String.eqb ?a ?b] => destruct (String.eqb a b) eqn:?
  | |- context [decodeTextToImage ?e ?b] => destruct (decodeTextToImage e b) eqn:?
  | |- context [decodeResize ?e ?b] => destruct (decodeResize e b) eqn:?
  | |- context [decodeSketchToImage ?e ?b] => destruct (decodeSketchToImage e b) eqn:?
  | |- context [decodeMagicEraser ?e ?b] => destruct (decodeMagicEraser e b) eqn:?
  | |- context [isEmpty ?a] => destruct (isEmpty a) eqn:?
  | |- context [Z.eqb ?a ?b] => destruct (Z.eqb a b) eqn:?
  | |- context [base64Fails ?a] => destruct (base64Fails a) eqn:?
  | |- context [Main.firstImage ?a] =>
      destruct (Main.firstImage a) as [[? ?]|?] eqn:?
  | |- context [generateImages ?e ?a ?b ?c] =>
      destruct (generateImages e a b c) as [[[|[[?|]] ?]]|?] eqn:?
  end.

Ltac crush := repeat (step; messages; try reflexivity; try pick).

Lemma serve_relay v env ep r : serve v env ep r = relay v env ep r.
Proof. destruct v, ep; crush. Qed.

(** ** What the writers leave in [w] *)

Lemma errorWriter_shape v message code t :
  errorShape v {| w := errorWriter v message code; trace := t |} code message.
Proof. destruct v; repeat split; reflexivity. Qed.

Lemma imageWriter_shape img mime t :
  imageShape {| w := imageWriter img mime; trace := t |} img mime.
Proof. repeat split; reflexivity. Qed.

Lemma errorWriter_status v message code t :
  statusOf {| w := errorWriter v message code; trace := t |} = Some code.
Proof. by destruct v. Qed.

Lemma errorShape_status v st code message :
  errorShape v st code message → statusOf st = Some code.
Proof. destruct v; intros (? & _); assumption. Qed.

(** ** Method check *)

(** C4: a request whose method is not POST is answered 405 [POST only];
    the body is not decoded, no call is made, nothing is logged, and the
    answer is the same whatever the body and whatever the decoders and the
    API would have said. *)
Theorem non_post_is_405 (v : variant) (env : Env) (ep : endpoint) (r : http.Request) :
  http.Method r ≠ http.MethodPost →
  errorShape v (serve v env ep r) 405 "POST only"
  ∧ trace (serve v env ep r) = []
  ∧ ∀ env' body,
      serve v env' ep {| http.Method := http.Method r; http.Body := body |}
      = serve v env ep r.
Proof.
  intros Hm. apply String.eqb_neq in Hm.
  assert (Hrun : ∀ env' r', http.Method r' = http.Method r →
            serve v env' ep r' = {| w := errorWriter v "POST only" 405; trace := [] |}).
  { intros env' r' E. rewrite serve_relay. unfold relay. by rewrite E, Hm. }
  rewrite (Hrun env r eq_refl). split; [apply errorWriter_shape |].
  split; [done |]. intros env' body. by apply Hrun.
Qed.

Lemma non_post_is_405_witness :
  errorShape Part000 (serve Part000 workingEnv Resize get) 405 "POST only"
  ∧ trace (serve Part000 workingEnv Resize get) = []
  ∧ ∀ env' body,
      serve Part000 env' Resize {| http.Method := http.Method get; http.Body := body |}
      = serve Part000 workingEnv Resize get.
Proof. apply (non_post_is_405 Part000 workingEnv Resize get). vm_compute. discriminate. Defined.

(** ** The three ways through a handler after the method check *)


Lemma serve_rejected v env ep r q message :
  http.Method r = http.MethodPost →
  decodeAt env ep (http.Body r) = Some q →
  rejection q = Some message →
  serve v env ep r = {| w := errorWriter v message 400; trace := [DecodeBody] |}.
Proof. intros Hm Hd Hr. rewrite serve_relay. unfold relay. by rewrite Hm, Hd, Hr. Qed.

Lemma serve_forwarded v env ep r q :
  validRequest env ep r q →
  serve v env ep r =
    match generated v env (promptFor v q) with
    | inl (img, mime) =>
        {| w := imageWriter img mime;
           trace := [DecodeBody; upstreamCall v (promptFor v q)] |}
    | inr err =>
        {| w := errorWriter v (failureMessage v ep err) 500;
           trace := [DecodeBody; upstreamCall v (promptFor v q)]
                    ++ failureLog v ep err |}
    end.
Proof. intros (Hm & Hd & Hr). rewrite serve_relay. unfold relay. by rewrite Hm, Hd, Hr. Qed.

Lemma isEmpty_true s : isEmpty s = true ↔ s = EmptyString.
Proof. apply String.eqb_eq. Qed.

Lemma isEmpty_false s : isEmpty s = false ↔ s ≠ EmptyString.
Proof. apply String.eqb_neq. Qed.

Lemma base64Fails_true s :
  base64Fails s = true ↔ base64.DecodeString base64.StdEncoding s = None.
Proof.
  unfold base64Fails.
  destruct (base64.DecodeString base64.StdEncoding s); split; congruence.
Qed.

(** ** Validation *)





(** ** encoding/base64: what the standard alphabet refuses *)

Example base64_hello :
  base64.DecodeString base64.StdEncoding "aGVsbG8=" = Some [104; 101; 108; 108; 111].
Proof. reflexivity. Qed.

(** Valid base64url (unpadded, URL alphabet), refused by [StdEncoding]. *)
Example base64_url_only :
  base64.DecodeString base64.RawURLEncoding "-_-_" = Some [251; 255; 191]
  ∧ base64.DecodeString base64.StdEncoding "-_-_" = None
  ∧ base64.DecodeString base64.RawURLEncoding "aGVsbG8" = Some [104; 101; 108; 108; 111]
  ∧ base64.DecodeString base64.StdEncoding "aGVsbG8" = None.
Proof. repeat split; reflexivity. Qed.

Lemma skipNewlines_occurs c s :
  base64.isNewline c = false → occurs c s = true →
  ∃ a rest, base64.skipNewlines s = String a rest ∧ occurs c (String a rest) = true.
Proof.
  intros Hn. induction s as [|a s IH]; simpl; [done |].
  intros Ho. destruct (base64.isNewline a) eqn:Ea.
  - destruct (Ascii.eqb_spec a c) as [->|_]; [congruence |]. by apply IH.
  - exists a, s. by split.
Qed.

Lemma padded_foreign enc c rest dbuf :
  foreign enc c → occurs c rest = true → base64.padded enc rest dbuf = None.
Proof.
  intros (Hm & Hn & Hp) Ho. unfold base64.padded.
  destruct (skipNewlines_occurs c rest Hn Ho) as (a & rest' & -> & Ho').
  destruct (length dbuf) as [|[|[|n]]]; try done.
  destruct (base64.isPad enc a) eqn:Ea; [|done].
  simpl in Ho'. destruct (Ascii.eqb_spec a c) as [->|_]; [congruence |].
  simpl in Ho'. by destruct (skipNewlines_occurs c rest' Hn Ho') as (? & ? & -> & _).
Qed.

(** One foreign character anywhere makes the whole decoding fail. *)
Lemma decodeFrom_foreign enc c s :
  foreign enc c → occurs c s = true → ∀ dbuf, base64.decodeFrom enc s dbuf = None.
Proof.
  intros Hf. pose proof Hf as (Hm & Hn & Hp).
  induction s as [|a s IH]; simpl; [done |].
  intros Ho dbuf.
  destruct (Ascii.eqb_spec a c) as [->|Hne]; simpl in Ho.
  - by rewrite Hm, Hn, Hp.
  - destruct (negb (base64.decodeMap enc a =? 255)).
    + destruct (length (dbuf ++ [base64.decodeMap enc a]) =? 4)%nat.
      * rewrite (IH Ho []). by destruct (base64.quantum _ _).
      * by apply IH.
    + destruct (base64.isNewline a); [by apply IH |].
      destruct (base64.isPad enc a); [|done].
      by apply (padded_foreign enc c).
Qed.

Lemma std_separated : separated base64.StdEncoding.
Proof.
  split.
  - unfold base64.isNewline. intros c H. apply orb_true_iff in H.
    destruct H as [H|H]; apply Ascii.eqb_eq in H; by subst.
  - unfold base64.isPad. simpl. intros c H. apply Ascii.eqb_eq in H. by subst.
Qed.

Lemma count_skipNewlines p s :
  (∀ c, base64.isNewline c = true → p c = false) →
  count p (base64.skipNewlines s) = count p s.
Proof.
  intros Hp. induction s as [|a s IH]; simpl; [done |].
  destruct (base64.isNewline a) eqn:E; [|done].
  by rewrite (Hp a E), IH.
Qed.

Lemma requiredPadding_add4 n : requiredPadding (4 + n) = requiredPadding n.
Proof.
  unfold requiredPadding.
  replace (4 + n)%nat with (n + 1 * 4)%nat by lia. by rewrite Nat.Div0.mod_add.
Qed.

Lemma padded_counts enc rest dbuf b :
  separated enc → (length dbuf < 4)%nat →
  base64.padded enc rest dbuf = Some b →
  digits enc rest = 0%nat
  ∧ (S (pads enc rest) = requiredPadding (length dbuf))%nat.
Proof.
  intros [Hnl Hpad] Hlen. unfold base64.padded, digits, pads.
  rewrite <- (count_skipNewlines _ rest) by (intros c Hc; by rewrite (proj1 (Hnl c Hc))).
  rewrite <- (count_skipNewlines (base64.isPad enc) rest) by (intros c Hc; apply (Hnl c Hc)).
  destruct (length dbuf) as [|[|[|[|n]]]]; try done; try lia.
  - destruct (base64.skipNewlines rest) as [|c rest']; [done |].
    destruct (base64.isPad enc c) eqn:Ec; [|done].
    destruct (base64.skipNewlines rest') as [|c' rest''] eqn:Er; [|done].
    intros _. simpl. rewrite Ec, (Hpad c Ec). simpl.
    rewrite <- (count_skipNewlines _ rest') by (intros x Hx; by rewrite (proj1 (Hnl x Hx))).
    rewrite <- (count_skipNewlines (base64.isPad enc) rest') by (intros x Hx; apply (Hnl x Hx)).
    by rewrite Er.
  - by destruct (base64.skipNewlines rest) as [|c rest'].
Qed.

(** A string that decodes under a padded encoding has exactly the padding
    its alphabet characters ask for. *)
Lemma decodeFrom_padding enc s :
  is_Some (base64.padChar enc) → separated enc →
  ∀ dbuf b, (length dbuf < 4)%nat →
    base64.decodeFrom enc s dbuf = Some b →
    pads enc s = requiredPadding (length dbuf + digits enc s).
Proof.
  intros [p Hp] Hsep. pose proof Hsep as [Hnl Hpad].
  induction s as [|a s IH]; intros dbuf b Hlen; cbn [base64.decodeFrom].
  - rewrite Hp. by destruct dbuf as [|? [|? ?]].
  - unfold digits, pads. cbn [count]. fold (digits enc s) (pads enc s).
    destruct (negb (base64.decodeMap enc a =? 255)) eqn:Ed.
    + assert (Ea : base64.isPad enc a = false).
      { destruct (base64.isPad enc a) eqn:E; [|done].
        rewrite (Hpad a E) in Ed. done. }
      rewrite Ea. cbn [Nat.add].
      set (dbuf' := dbuf ++ [base64.decodeMap enc a]).
      assert (Hl : length dbuf' = S (length dbuf)).
      { unfold dbuf'. rewrite length_app. simpl. lia. }
      destruct (Nat.eqb_spec (length dbuf') 4) as [E4|E4].
      * destruct (base64.quantum enc dbuf'); [|done].
        destruct (base64.decodeFrom enc s []) as [bs|] eqn:Es; [|done].
        intros _. rewrite (IH [] bs) by (simpl; lia || done).
        rewrite <- requiredPadding_add4. f_equal. simpl. lia.
      * intros H. rewrite (IH dbuf' b) by (lia || done). f_equal. lia.
    + destruct (base64.isNewline a) eqn:En.
      { rewrite (proj2 (Hnl a En)). cbn [Nat.add]. by apply IH. }
      destruct (base64.isPad enc a) eqn:Ea; [|done].
      intros H. destruct (padded_counts enc s dbuf b Hsep Hlen H) as [Hd Hq].
      rewrite Hd, Nat.add_0_r. cbn [Nat.add]. done.
Qed.

Lemma std_refuses s :
  urlSafeChar s ∨ lacksPadding s →
  base64.DecodeString base64.StdEncoding s = None.
Proof.
  unfold base64.DecodeString. intros [[H|H]|H].
  - by apply (decodeFrom_foreign _ "-"%char).
  - by apply (decodeFrom_foreign _ "_"%char).
  - destruct (base64.decodeFrom base64.StdEncoding s []) as [b|] eqn:E; [|done].
    apply decodeFrom_padding in E; [| by eexists | apply std_separated | simpl; lia].
    unfold lacksPadding in H. simpl in E. lia.
Qed.

Example unpadded_lacks :
  lacksPadding "aGVsbG8" ∧ lacksPadding "QQ=" ∧ ¬ lacksPadding "QQ==".
Proof. unfold lacksPadding. vm_compute. lia. Qed.

(** C10: image fields are checked against the standard alphabet with
    padding.  When the image field of a POST request with a decodable body
    holds [-] or [_], or has fewer [=] than its alphabet characters ask
    for, [StdEncoding] refuses it and the request is answered 400; the
    message is [invalid base64] as soon as the checks that come first (empty
    fields, scale) pass. *)
Theorem url_safe_base64_is_400 (v : variant) (env : Env) (ep : endpoint)
    (r : http.Request) (q : payload) (img : string) :
  http.Method r = http.MethodPost →
  decodeAt env ep (http.Body r) = Some q →
  imageOf q = Some img →
  urlSafeChar img ∨ lacksPadding img →
  base64.DecodeString base64.StdEncoding img = None
  ∧ statusOf (serve v env ep r) = Some 400
  ∧ (fieldRejection q = None → errorShape v (serve v env ep r) 400 "invalid base64").
Proof.
  intros Hm Hd Hi Hs. pose proof (std_refuses img Hs) as Hf.
  split; [done |].
  assert (Hr : rejection q =
    match fieldRejection q with Some m => Some m | None => Some "invalid base64" end).
  { unfold rejection. rewrite Hi. apply base64Fails_true in Hf. by rewrite Hf. }
  destruct (fieldRejection q) as [m|] eqn:Hq.
  - rewrite (serve_rejected v env ep r q m Hm Hd Hr). split; [|done].
    apply errorWriter_status.
  - rewrite (serve_rejected v env ep r q _ Hm Hd Hr). split.
    + apply errorWriter_status.
    + intros _. apply errorWriter_shape.
Qed.

(** ** Order of the checks in [handleResize] *)

(** C9: in /resize the empty image is reported first, whatever the scale;
    then the scale, whatever the image decodes to. *)
Theorem resize_checks_in_order (v : variant) (env : Env) (r : http.Request)
    (q : ResizeRequest) :
  http.Method r = http.MethodPost →
  decodeResize env (http.Body r) = Some q →
  (Resize_ImageBase64 q = EmptyString →
     errorShape v (serve v env Resize r) 400 "missing image")
  ∧ (Resize_ImageBase64 q ≠ EmptyString → Scale q ≠ 2 → Scale q ≠ 4 →
     errorShape v (serve v env Resize r) 400 "scale must be 2 or 4").
Proof.
  intros Hm Hd.
  assert (Hd' : decodeAt env Resize (http.Body r) = Some (OfResize q)).
  { unfold decodeAt. by rewrite Hd. }
  split.
  - intros He. apply isEmpty_true in He.
    rewrite (serve_rejected v env Resize r _ "missing image" Hm Hd').
    + apply errorWriter_shape.
    + unfold rejection. simpl. by rewrite He.
  - intros He H2 H4. apply isEmpty_false in He.
    apply Z.eqb_neq in H2, H4.
    rewrite (serve_rejected v env Resize r _ "scale must be 2 or 4" Hm Hd').
    + apply errorWriter_shape.
    + unfold rejection. simpl. by rewrite He, H2, H4.
Qed.

Lemma resize_checks_in_order_witness :
  (Resize_ImageBase64 {| Resize_ImageBase64 := "not base64!"; Scale := 3 |} = EmptyString →
     errorShape MainGo (serve MainGo oddEnv Resize (post "{}")) 400 "missing image")
  ∧ (Resize_ImageBase64 {| Resize_ImageBase64 := "not base64!"; Scale := 3 |} ≠ EmptyString →
     Scale {| Resize_ImageBase64 := "not base64!"; Scale := 3 |} ≠ 2 →
     Scale {| Resize_ImageBase64 := "not base64!"; Scale := 3 |} ≠ 4 →
     errorShape MainGo (serve MainGo oddEnv Resize (post "{}")) 400 "scale must be 2 or 4").
Proof.
  apply (resize_checks_in_order MainGo oddEnv (post "{}")
           {| Resize_ImageBase64 := "not base64!"; Scale := 3 |}); reflexivity.
Defined.

Lemma url_safe_base64_is_400_witness :
  base64.DecodeString base64.StdEncoding "-_-_" = None
  ∧ statusOf (serve Part000 oddEnv MagicEraser (post "{}")) = Some 400
  ∧ (fieldRejection (OfEraser {| Eraser_ImageBase64 := "-_-_" |}) = None →
     errorShape Part000 (serve Part000 oddEnv MagicEraser (post "{}")) 400 "invalid base64").
Proof.
  apply (url_safe_base64_is_400 Part000 oddEnv MagicEraser (post "{}")
           (OfEraser {| Eraser_ImageBase64 := "-_-_" |}) "-_-_");
    [reflexivity | reflexivity | reflexivity | left; left; reflexivity].
Defined.
(** ** What reaches the generation API *)

Lemma upstreamCall_isUpstream v prompt : isUpstream (upstreamCall v prompt) = true.
Proof. by destruct v. Qed.

Lemma failureLog_calls v ep err : callsIn (failureLog v ep err) = [].
Proof. by destruct v. Qed.

Lemma forwarded_calls v env ep r q :
  validRequest env ep r q →
  upstreamCalls (serve v env ep r) = [upstreamCall v (promptFor v q)].
Proof.
  intros Hv. rewrite (serve_forwarded v env ep r q Hv). unfold upstreamCalls.
  destruct (generated v env (promptFor v q)) as [[img mime]|err];
    simpl; rewrite upstreamCall_isUpstream; [done |].
  by rewrite failureLog_calls.
Qed.

Lemma textSent_upstreamCall v prompt : textSent (upstreamCall v prompt) = [prompt].
Proof. by destruct v. Qed.

Lemma inlineSent_upstreamCall v prompt : inlineSent (upstreamCall v prompt) = [].
Proof. by destruct v. Qed.

Lemma promptFor_setImage v img q : promptFor v (setImage img q) = promptFor v q.
Proof. by destruct q. Qed.

(** C2: a valid request makes one call to the API; the call carries the
    synthesised prompt as its only text and no inline data; the prompt does
    not depend on the image field; and any other valid request that differs
    in the image field only is served the same response with the same
    trace. *)
Theorem image_is_not_forwarded (v : variant) (env : Env) (ep : endpoint)
    (r : http.Request) (q : payload) :
  validRequest env ep r q →
  upstreamCalls (serve v env ep r) = [upstreamCall v (promptFor v q)]
  ∧ textSent (upstreamCall v (promptFor v q)) = [promptFor v q]
  ∧ inlineSent (upstreamCall v (promptFor v q)) = []
  ∧ (∀ img, promptFor v (setImage img q) = promptFor v q)
  ∧ (∀ r' img, validRequest env ep r' (setImage img q) →
       serve v env ep r' = serve v env ep r).
Proof.
  intros Hv. split; [by apply forwarded_calls |].
  split; [apply textSent_upstreamCall |].
  split; [apply inlineSent_upstreamCall |].
  split; [intros img; apply promptFor_setImage |].
  intros r' img Hv'.
  rewrite (serve_forwarded v env ep r q Hv).
  rewrite (serve_forwarded v env ep r' _ Hv').
  by rewrite promptFor_setImage.
Qed.

Lemma image_is_not_forwarded_witness :
  upstreamCalls (serve MainGo workingEnv Resize (post "{}"))
    = [upstreamCall MainGo
         (promptFor MainGo (OfResize {| Resize_ImageBase64 := sampleImage; Scale := 4 |}))]
  ∧ textSent (upstreamCall MainGo
         (promptFor MainGo (OfResize {| Resize_ImageBase64 := sampleImage; Scale := 4 |})))
    = [promptFor MainGo (OfResize {| Resize_ImageBase64 := sampleImage; Scale := 4 |})]
  ∧ inlineSent (upstreamCall MainGo
         (promptFor MainGo (OfResize {| Resize_ImageBase64 := sampleImage; Scale := 4 |})))
    = []
  ∧ (∀ img,
       promptFor MainGo
         (setImage img (OfResize {| Resize_ImageBase64 := sampleImage; Scale := 4 |}))
       = promptFor MainGo (OfResize {| Resize_ImageBase64 := sampleImage; Scale := 4 |}))
  ∧ (∀ r' img,
       validRequest workingEnv Resize r'
         (setImage img (OfResize {| Resize_ImageBase64 := sampleImage; Scale := 4 |})) →
       serve MainGo workingEnv Resize r' = serve MainGo workingEnv Resize (post "{}")).
Proof.
  apply (image_is_not_forwarded MainGo workingEnv Resize (post "{}")
           (OfResize {| Resize_ImageBase64 := sampleImage; Scale := 4 |})).
  repeat split; reflexivity.
Defined.

(** ** Prompt synthesis *)

Lemma valid_scale q :
  rejection (OfResize q) = None → Scale q = 2 ∨ Scale q = 4.
Proof.
  unfold rejection. simpl.
  destruct (isEmpty (Resize_ImageBase64 q)); [done |].
  destruct (Z.eqb_spec (Scale q) 2); [by left |].
  destruct (Z.eqb_spec (Scale q) 4); [by right | done].
Qed.

(** C7, as the code has it: the prompt of a valid request is a function of
    the decoded body.  /resize sends [Resize this image by x2 preserving
    details.] or the same with [x4]; /sketch-to-image sends [Interpret this
    sketch as '<description>'.] in main.go and [Sketch to Image: interpret
    this sketch as '<description>'.] in the other variant; /magic-eraser
    sends one constant, a different one in each variant. *)
Theorem prompt_synthesis (v : variant) (env : Env) (ep : endpoint)
    (r : http.Request) (q : payload) :
  validRequest env ep r q →
  promptsSent (serve v env ep r) = [promptFor v q]
  ∧ match q with
    | OfText q' => promptFor v q = Prompt q'
    | OfResize q' =>
        (Scale q' = 2 ∧ promptFor v q = "Resize this image by x2 preserving details.")
        ∨ (Scale q' = 4 ∧ promptFor v q = "Resize this image by x4 preserving details.")
    | OfSketch q' =>
        promptFor v q =
          match v with
          | MainGo => "Interpret this sketch as '" +:+ Description q' +:+ "'."
          | Part000 =>
              "Sketch to Image: interpret this sketch as '" +:+ Description q' +:+ "'."
          end
    | OfEraser _ =>
        promptFor v q =
          match v with
          | MainGo => "Remove the pink masked area and reconstruct the background."
          | Part000 =>
              "Magic eraser: remove the pink masked area and reconstruct background."
          end
    end.
Proof.
  intros Hv. split.
  - unfold promptsSent. rewrite (forwarded_calls v env ep r q Hv). simpl.
    by rewrite textSent_upstreamCall.
  - destruct Hv as (_ & _ & Hr). destruct q as [q|q|q|q]; try done.
    destruct (valid_scale q Hr) as [E|E]; [left | right]; (split; [done |]);
      unfold promptFor; by rewrite E.
Qed.

Lemma prompt_synthesis_witness :
  promptsSent (serve Part000 workingEnv SketchToImage (post "{}"))
    = [promptFor Part000
         (OfSketch {| Sketch_ImageBase64 := sampleImage; Description := "a cat" |})]
  ∧ promptFor Part000
      (OfSketch {| Sketch_ImageBase64 := sampleImage; Description := "a cat" |})
    = "Sketch to Image: interpret this sketch as '" +:+ "a cat" +:+ "'.".
Proof.
  apply (prompt_synthesis Part000 workingEnv SketchToImage (post "{}")
           (OfSketch {| Sketch_ImageBase64 := sampleImage; Description := "a cat" |})).
  repeat split; reflexivity.
Defined.

(** C7 as stated fails on the variant: for the description [a cat] it sends
    a prompt that is not [Interpret this sketch as 'a cat'.] *)
Lemma sketch_prompt_counterexample :
  validRequest workingEnv SketchToImage (post "{}")
    (OfSketch {| Sketch_ImageBase64 := sampleImage; Description := "a cat" |})
  ∧ promptsSent (serve Part000 workingEnv SketchToImage (post "{}"))
    = ["Sketch to Image: interpret this sketch as 'a cat'."]
  ∧ promptsSent (serve Part000 workingEnv SketchToImage (post "{}"))
    ≠ ["Interpret this sketch as 'a cat'."].
Proof. split; [by repeat split |]. split; [reflexivity |]. by vm_compute. Qed.
(** ** Upstream failures *)

Lemma firstInline_none parts : noInline parts → Main.firstInline parts = None.
Proof. induction 1 as [|part parts Hp _ IH]; simpl; [done | by rewrite Hp]. Qed.

Lemma firstImage_skip before items :
  streamWithoutImage before →
  Main.firstImage (before ++ items) = Main.firstImage items.
Proof.
  induction 1 as [|item before (result & -> & Hc) _ IH]; simpl; [done |].
  destruct (genai.Candidates result) as [|candidate cs] eqn:Ec; [done |].
  destruct (genai.Candidate_Content candidate) as [content|] eqn:Ek; [|done].
  destruct (genai.Parts content) as [|part parts] eqn:Ep; [done |].
  assert (Hn : noInline (part :: parts)).
  { rewrite <- Ep. apply (Hc candidate content); [by rewrite Ec | done]. }
  change (match Main.firstInline (part :: parts) with
          | Some found => inl found
          | None => Main.firstImage (before ++ items)
          end = Main.firstImage items).
  by rewrite (firstInline_none _ Hn).
Qed.

Lemma firstImage_none items :
  streamWithoutImage items → Main.firstImage items = inr "no image returned".
Proof.
  intros H. rewrite <- (app_nil_r items). by rewrite firstImage_skip.
Qed.

Lemma generated_no_image v env prompt :
  returnsNoImage v env prompt → generated v env prompt = inr "no image returned".
Proof.
  destruct v; simpl.
  - intros H. unfold generated, Main.generateSingleImage. simpl.
    by rewrite (firstImage_none _ H).
  - intros (resp & [= E] & H). unfold generated, Variant.generateSingleImage. simpl.
    rewrite E. destruct H as [->|(first & Hh & Hi)]; [done |].
    destruct (genai.GeneratedImages resp) as [|first' rest]; [done |].
    injection Hh as ->. by rewrite Hi.
Qed.

Lemma serve_failed v env ep r q err :
  validRequest env ep r q →
  generated v env (promptFor v q) = inr err →
  serve v env ep r =
    {| w := errorWriter v (failureMessage v ep err) 500;
       trace := [DecodeBody; upstreamCall v (promptFor v q)] ++ failureLog v ep err |}.
Proof. intros Hv Hg. rewrite (serve_forwarded v env ep r q Hv). by rewrite Hg. Qed.

Lemma failureMessage_nonempty v ep err : failureMessage v ep err ≠ EmptyString.
Proof. by destruct v, ep. Qed.

(** C5, as the code has it: when the call succeeds and brings no image,
    [generateSingleImage] returns the error [no image returned] and every
    endpoint answers 500 with a non-empty message: the JSON object
    [{error: <operation> error: no image returned}] in main.go, the text
    line [<operation> error] in the other variant. *)
Theorem no_image_is_500 (v : variant) (env : Env) (ep : endpoint)
    (r : http.Request) (q : payload) :
  validRequest env ep r q →
  returnsNoImage v env (promptFor v q) →
  generated v env (promptFor v q) = inr "no image returned"
  ∧ errorShape v (serve v env ep r) 500
      match v with
      | MainGo => operation ep +:+ " error: no image returned"
      | Part000 => operation ep +:+ " error"
      end
  ∧ match v with
    | MainGo => operation ep +:+ " error: no image returned"
    | Part000 => operation ep +:+ " error"
    end ≠ EmptyString.
Proof.
  intros Hv Hn. pose proof (generated_no_image v env _ Hn) as Hg.
  split; [done |]. split.
  - rewrite (serve_failed v env ep r q _ Hv Hg).
    change (match v with
            | MainGo => operation ep +:+ " error: no image returned"
            | Part000 => operation ep +:+ " error"
            end) with (failureMessage v ep "no image returned").
    apply errorWriter_shape.
  - apply (failureMessage_nonempty v ep "no image returned").
Qed.

Lemma no_image_is_500_witness :
  generated MainGo emptyEnv
    (promptFor MainGo (OfEraser {| Eraser_ImageBase64 := sampleImage |}))
  = inr "no image returned"
  ∧ errorShape MainGo (serve MainGo emptyEnv MagicEraser (post "{}")) 500
      (operation MagicEraser +:+ " error: no image returned")
  ∧ operation MagicEraser +:+ " error: no image returned" ≠ EmptyString.
Proof.
  apply (no_image_is_500 MainGo emptyEnv MagicEraser (post "{}")
           (OfEraser {| Eraser_ImageBase64 := sampleImage |})).
  - repeat split; reflexivity.
  - repeat constructor. exists textChunk. split; [reflexivity |].
    intros candidate content [= <-] [= <-]. repeat constructor.
Defined.

(** C5 as stated fails on the variant: with no image returned, the body of
    the 500 answer is the text line [generation error], not a JSON object. *)
Lemma no_image_counterexample :
  validRequest emptyEnv TextToImage (post "{}") (OfText {| Prompt := "a cat" |})
  ∧ returnsNoImage Part000 emptyEnv "a cat"
  ∧ statusOf (serve Part000 emptyEnv TextToImage (post "{}")) = Some 500
  ∧ bodyOf (serve Part000 emptyEnv TextToImage (post "{}")) = [http.Line "generation error"]
  ∧ ∀ message, ¬ jsonErrorShape (serve Part000 emptyEnv TextToImage (post "{}")) 500 message.
Proof.
  split; [by repeat split |]. split.
  { eexists. split; [reflexivity | by left]. }
  split; [reflexivity |]. split; [reflexivity |].
  intros message (_ & _ & Hb). vm_compute in Hb. discriminate Hb.
Qed.

(** C6, as the code has it: when [generateSingleImage] fails with [err],
    main.go answers 500 with [<operation> error: ] followed by the text of
    [err], and logs one line with the same text; the other variant answers
    500 with the fixed [<operation> error] and logs nothing. *)
Theorem upstream_failure_is_500 (v : variant) (env : Env) (ep : endpoint)
    (r : http.Request) (q : payload) (err : error) :
  validRequest env ep r q →
  generated v env (promptFor v q) = inr err →
  errorShape v (serve v env ep r) 500
    match v with
    | MainGo => operation ep +:+ " error: " +:+ err
    | Part000 => operation ep +:+ " error"
    end
  ∧ logLines (trace (serve v env ep r)) =
    match v with
    | MainGo => [logPrefix ep +:+ err]
    | Part000 => []
    end.
Proof.
  intros Hv Hg. rewrite (serve_failed v env ep r q err Hv Hg). split.
  - change (match v with
            | MainGo => operation ep +:+ " error: " +:+ err
            | Part000 => operation ep +:+ " error"
            end) with (failureMessage v ep err).
    apply errorWriter_shape.
  - by destruct v.
Qed.

Lemma upstream_failure_is_500_witness :
  errorShape Part000 (serve Part000 failingEnv Resize (post "{}")) 500
    (operation Resize +:+ " error")
  ∧ logLines (trace (serve Part000 failingEnv Resize (post "{}"))) = [].
Proof.
  apply (upstream_failure_is_500 Part000 failingEnv Resize (post "{}")
           (OfResize {| Resize_ImageBase64 := sampleImage; Scale := 4 |}) upstreamDetail).
  - repeat split; reflexivity.
  - reflexivity.
Defined.

(** C6 as stated fails on main.go: the text of the upstream error is part of
    the message sent to the client. *)
Lemma upstream_detail_counterexample :
  validRequest failingEnv TextToImage (post "{}") (OfText {| Prompt := "a cat" |})
  ∧ generated MainGo failingEnv "a cat" = inr upstreamDetail
  ∧ jsonErrorShape (serve MainGo failingEnv TextToImage (post "{}")) 500
      ("generation error: " +:+ upstreamDetail)
  ∧ leaks upstreamDetail ("generation error: " +:+ upstreamDetail).
Proof.
  split; [by repeat split |]. split; [reflexivity |].
  split; [by repeat split |].
  by exists "generation error: ", EmptyString.
Qed.

(** ** Content type of an image answer *)

Lemma firstInline_found parts part parts' blob :
  noInline parts → genai.InlineData part = Some blob →
  Main.firstInline (parts ++ part :: parts')
  = Some (genai.Data blob,
          if isEmpty (genai.MIMEType blob) then "image/png" else genai.MIMEType blob).
Proof.
  intros Hn Hi.
  induction Hn as [|x l Hx _ IH]; simpl; [by rewrite Hi | by rewrite Hx].
Qed.

Lemma firstImage_chunk result candidate content items found :
  head (genai.Candidates result) = Some candidate →
  genai.Candidate_Content candidate = Some content →
  Main.firstInline (genai.Parts content) = Some found →
  Main.firstImage (inl result :: items) = inl found.
Proof.
  intros Hc Hk Hf. cbn [Main.firstImage].
  destruct (genai.Candidates result) as [|c cs]; [done |]. injection Hc as ->.
  rewrite Hk. destruct (genai.Parts content) as [|x l]; [done |]. by rewrite Hf.
Qed.

Lemma generated_first_payload v env prompt img mime :
  firstPayload v env prompt img mime →
  generated v env prompt =
    inl (img, match v with
              | MainGo => if isEmpty mime then "image/png" else mime
              | Part000 => "image/png"
              end).
Proof.
  destruct v; simpl.
  - intros (before & result & after & candidate & content & parts & part & parts' & blob
            & Es & Hb & Hc & Hk & Hp & Hn & Hi & <- & <-).
    unfold generated, Main.generateSingleImage. simpl. rewrite Es.
    rewrite (firstImage_skip _ _ Hb).
    rewrite (firstImage_chunk result candidate content after _ Hc Hk
               (eq_trans (f_equal Main.firstInline Hp)
                         (firstInline_found parts part parts' blob Hn Hi))).
    destruct (isEmpty (genai.MIMEType blob)) eqn:E; [done | by rewrite E].
  - intros (resp & first & image & [= E] & Hh & Hi & <- & <-).
    unfold generated, Variant.generateSingleImage. simpl. rewrite E.
    destruct (genai.GeneratedImages resp) as [|f rest]; [done |]. injection Hh as ->.
    by rewrite Hi.
Qed.

(** C8, as the code has it: in main.go an image answer carries the bytes of
    the first inline payload and its declared MIME type, [image/png] when
    that is empty; in the other variant it carries the bytes of the first
    generated image and [image/png], whatever was declared. *)
Theorem content_type_of_image (v : variant) (env : Env) (ep : endpoint)
    (r : http.Request) (q : payload) (img : bytes) (mime : string) :
  validRequest env ep r q →
  firstPayload v env (promptFor v q) img mime →
  imageShape (serve v env ep r) img
    match v with
    | MainGo => if isEmpty mime then "image/png" else mime
    | Part000 => "image/png"
    end.
Proof.
  intros Hv Hf. rewrite (serve_forwarded v env ep r q Hv).
  rewrite (generated_first_payload v env _ img mime Hf).
  apply imageWriter_shape.
Qed.

Lemma content_type_of_image_witness :
  imageShape (serve MainGo workingEnv TextToImage (post "{}"))
    [137; 80; 78; 71] (if isEmpty "image/jpeg" then "image/png" else "image/jpeg").
Proof.
  apply (content_type_of_image MainGo workingEnv TextToImage (post "{}")
           (OfText {| Prompt := "a cat" |}) [137; 80; 78; 71] "image/jpeg").
  - repeat split; reflexivity.
  - exists [inl textChunk], sampleChunk, [].
    eexists _, _, [genai.NewPartFromText "here it is"], _, [], sampleBlob.
    split; [reflexivity |]. split.
    { repeat constructor. exists textChunk. split; [reflexivity |].
      intros candidate content [= <-] [= <-]. repeat constructor. }
    repeat split; try reflexivity. repeat constructor.
Defined.

(** C8 as stated fails on the variant: the image is declared [image/jpeg]
    and served as [image/png]. *)
Lemma content_type_counterexample :
  validRequest workingEnv TextToImage (post "{}") (OfText {| Prompt := "a cat" |})
  ∧ firstPayload Part000 workingEnv "a cat" [255; 216; 255] "image/jpeg"
  ∧ imageShape (serve Part000 workingEnv TextToImage (post "{}")) [255; 216; 255] "image/png"
  ∧ contentType (serve Part000 workingEnv TextToImage (post "{}")) ≠ "image/jpeg".
Proof.
  split; [by repeat split |]. split.
  { eexists _, _, _. repeat split; reflexivity. }
  split; [by repeat split |]. by vm_compute.
Qed.

(** ** The two response shapes *)







(** * Further properties of the handlers *)

(** ** Status, trace and log of every request *)

Lemma imageWriter_status img mime t :
  statusOf {| w := imageWriter img mime; trace := t |} = Some 200.
Proof. reflexivity. Qed.

(** X1: the status of a response tells the path taken.  It is 405 exactly
    for a method other than POST, 200 exactly for a valid request whose
    generation returned an image, 500 exactly for a valid request whose
    generation failed, and 400 otherwise: no handler answers anything
    else. *)
Theorem status_tells_path (v : variant) (env : Env) (ep : endpoint) (r : http.Request) :
  (statusOf (serve v env ep r) = Some 405 ↔ http.Method r ≠ http.MethodPost)
  ∧ (statusOf (serve v env ep r) = Some 200 ↔
       ∃ q img mime, validRequest env ep r q
         ∧ generated v env (promptFor v q) = inl (img, mime))
  ∧ (statusOf (serve v env ep r) = Some 500 ↔
       ∃ q err, validRequest env ep r q
         ∧ generated v env (promptFor v q) = inr err)
  ∧ (statusOf (serve v env ep r) = Some 200 ∨ statusOf (serve v env ep r) = Some 400
     ∨ statusOf (serve v env ep r) = Some 405 ∨ statusOf (serve v env ep r) = Some 500).
Proof.
  rewrite serve_relay. unfold relay, validRequest.
  destruct (String.eqb_spec (http.Method r) http.MethodPost) as [Hm|Hm]; simpl.
  2: { rewrite errorWriter_status. repeat split; try done; try tauto.
       - by intros (q & img & mime & (? & _) & _).
       - by intros (q & err & (? & _) & _). }
  destruct (decodeAt env ep (http.Body r)) as [q|] eqn:Hd.
  2: { rewrite errorWriter_status. repeat split; try done; try tauto.
       - by intros (q & img & mime & (_ & ? & _) & _).
       - by intros (q & err & (_ & ? & _) & _). }
  destruct (rejection q) as [message|] eqn:Hr.
  { rewrite errorWriter_status. repeat split; try done; try tauto.
    - intros (q' & img & mime & (_ & [= <-] & ?) & _). congruence.
    - intros (q' & err & (_ & [= <-] & ?) & _). congruence. }
  destruct (generated v env (promptFor v q)) as [[img mime]|err] eqn:Hg.
  - rewrite imageWriter_status. repeat split; try done; try tauto.
    + intros _. by exists q, img, mime.
    + intros (q' & err & (_ & [= <-] & _) & ?). congruence.
  - rewrite errorWriter_status. repeat split; try done; try tauto.
    + intros (q' & img & mime & (_ & [= <-] & _) & ?). congruence.
    + intros _. by exists q, err.
Qed.

(** X2: what a handler does besides answering.  The trace of a request is
    empty, or the decoding of the body alone, or the decoding followed by
    one call to the generation API, or (main.go only) these two followed by
    one log line: the body is decoded at most once, the API is called at
    most once and never again after a failure, and nothing is logged
    before the call. *)
Theorem trace_shapes (v : variant) (env : Env) (ep : endpoint) (r : http.Request) :
  trace (serve v env ep r) = []
  ∨ trace (serve v env ep r) = [DecodeBody]
  ∨ (∃ prompt, trace (serve v env ep r) = [DecodeBody; upstreamCall v prompt])
  ∨ (v = MainGo
     ∧ ∃ prompt line,
         trace (serve v env ep r) = [DecodeBody; upstreamCall v prompt; LogPrintf line]).
Proof.
  rewrite serve_relay. unfold relay.
  destruct (negb _); [by left |].
  destruct (decodeAt env ep (http.Body r)) as [q|]; [| by right; left].
  destruct (rejection q); [by right; left |].
  destruct (generated v env (promptFor v q)) as [[img mime]|err].
  - right; right; left. by eexists.
  - destruct v; simpl.
    + right; right; right. split; [done |]. by eexists _, _.
    + right; right; left. by eexists.
Qed.

(** X3: the generation API is called exactly when the request is answered
    200 or 500; a request answered 400 or 405 never reaches it. *)
Theorem called_iff_200_or_500 (v : variant) (env : Env) (ep : endpoint) (r : http.Request) :
  ((∃ call, upstreamCalls (serve v env ep r) = [call]) ↔
     statusOf (serve v env ep r) = Some 200 ∨ statusOf (serve v env ep r) = Some 500)
  ∧ (upstreamCalls (serve v env ep r) = [] ↔
     statusOf (serve v env ep r) = Some 400 ∨ statusOf (serve v env ep r) = Some 405).
Proof.
  rewrite serve_relay. unfold relay, upstreamCalls.
  destruct (negb _).
  { rewrite errorWriter_status. simpl. split; split; try tauto; try done.
    - by intros [? ?].
    - by intros [?|?]. }
  destruct (decodeAt env ep (http.Body r)) as [q|].
  2: { rewrite errorWriter_status. simpl. split; split; try tauto; try done.
       - by intros [? ?].
       - by intros [?|?]. }
  destruct (rejection q).
  { rewrite errorWriter_status. simpl. split; split; try tauto; try done.
    - by intros [? ?].
    - by intros [?|?]. }
  destruct (generated v env (promptFor v q)) as [[img mime]|err].
  - rewrite imageWriter_status. simpl. rewrite upstreamCall_isUpstream.
    split; split; try tauto; try done.
    + intros _. by eexists.
    + by intros [?|?].
  - rewrite errorWriter_status. simpl. rewrite upstreamCall_isUpstream, failureLog_calls.
    split; split; try tauto; try done.
    + intros _. by eexists.
    + by intros [?|?].
Qed.

(** X4: main.go writes a log line exactly when it answers 500, and then one
    line only; the other variant never writes to the log. *)
Theorem logged_iff_500 (env : Env) (ep : endpoint) (r : http.Request) :
  ((∃ line, logLines (trace (serve MainGo env ep r)) = [line]) ↔
     statusOf (serve MainGo env ep r) = Some 500)
  ∧ (logLines (trace (serve MainGo env ep r)) = [] ↔
     statusOf (serve MainGo env ep r) ≠ Some 500)
  ∧ logLines (trace (serve Part000 env ep r)) = [].
Proof.
  rewrite !serve_relay. unfold relay.
  destruct (negb _).
  { rewrite errorWriter_status. simpl. repeat split; try done. by intros [? ?]. }
  destruct (decodeAt env ep (http.Body r)) as [q|].
  2: { rewrite errorWriter_status. simpl. repeat split; try done. by intros [? ?]. }
  destruct (rejection q).
  { rewrite errorWriter_status. simpl. repeat split; try done. by intros [? ?]. }
  split; [| split].
  - destruct (generated MainGo env (promptFor MainGo q)) as [[img mime]|err].
    + rewrite imageWriter_status. simpl. split; [by intros [? ?] | done].
    + rewrite errorWriter_status. simpl. split; [done | intros _; by eexists].
  - destruct (generated MainGo env (promptFor MainGo q)) as [[img mime]|err].
    + by rewrite imageWriter_status.
    + rewrite errorWriter_status. simpl. split; [done | by intros []].
  - by destruct (generated Part000 env (promptFor Part000 q)) as [[img mime]|err].
Qed.

(** ** Order of the checks in [handleSketchToImage] *)

(** X5: in /sketch-to-image an empty image and an empty description are
    reported alike, as [missing fields], and before the image is decoded:
    the answer does not depend on whether the image is base64. *)
Theorem sketch_fields_first (v : variant) (env : Env) (r : http.Request)
    (q : SketchToImageRequest) :
  http.Method r = http.MethodPost →
  decodeSketchToImage env (http.Body r) = Some q →
  Sketch_ImageBase64 q = EmptyString ∨ Description q = EmptyString →
  errorShape v (serve v env SketchToImage r) 400 "missing fields"
  ∧ trace (serve v env SketchToImage r) = [DecodeBody].
Proof.
  intros Hm Hd He.
  assert (Hd' : decodeAt env SketchToImage (http.Body r) = Some (OfSketch q)).
  { unfold decodeAt. by rewrite Hd. }
  rewrite (serve_rejected v env SketchToImage r _ "missing fields" Hm Hd').
  - split; [apply errorWriter_shape | done].
  - unfold rejection. simpl.
    destruct He as [He|He]; apply isEmpty_true in He; rewrite He; [done |].
    by rewrite orb_true_r.
Qed.

Lemma sketch_fields_first_witness :
  errorShape Part000
    (serve Part000
       (sampleEnv None None
          (Some {| Sketch_ImageBase64 := "not base64!"; Description := EmptyString |})
          None [] (inr "unused"))
       SketchToImage (post "{}")) 400 "missing fields"
  ∧ trace
      (serve Part000
         (sampleEnv None None
            (Some {| Sketch_ImageBase64 := "not base64!"; Description := EmptyString |})
            None [] (inr "unused"))
         SketchToImage (post "{}")) = [DecodeBody].
Proof.
  apply (sketch_fields_first Part000 _ (post "{}")
           {| Sketch_ImageBase64 := "not base64!"; Description := EmptyString |});
    [reflexivity | reflexivity | right; reflexivity].
Defined.
(** ** How [generateSingleImage] reads the stream *)

(** X6: in main.go an error yielded by the stream before any image ends
    the generation with that error: the request is answered 500 with its
    text and logged, whatever the stream would have yielded next, an image
    included. *)
Theorem stream_error_ends_generation (env : Env) (ep : endpoint) (r : http.Request)
    (q : payload) (before after : list (genai.GenerateContentResponse + error))
    (err : error) :
  validRequest env ep r q →
  streamOf env (upstreamCall MainGo (promptFor MainGo q)) = before ++ inr err :: after →
  streamWithoutImage before →
  generated MainGo env (promptFor MainGo q) = inr err
  ∧ jsonErrorShape (serve MainGo env ep r) 500 (operation ep +:+ " error: " +:+ err)
  ∧ logLines (trace (serve MainGo env ep r)) = [logPrefix ep +:+ err].
Proof.
  intros Hv Hs Hb.
  assert (Hg : generated MainGo env (promptFor MainGo q) = inr err).
  { unfold generated, Main.generateSingleImage. simpl. simpl in Hs. rewrite Hs.
    by rewrite (firstImage_skip _ _ Hb). }
  split; [done |]. rewrite (serve_failed MainGo env ep r q err Hv Hg).
  split; [apply (errorWriter_shape MainGo) | done].
Qed.

Lemma stream_error_ends_generation_witness :
  generated MainGo
    (bodyEnv [inl textChunk; inr "stream reset"; inl sampleChunk] (inr "unused"))
    (promptFor MainGo (OfText {| Prompt := "a cat" |})) = inr "stream reset"
  ∧ jsonErrorShape
      (serve MainGo
         (bodyEnv [inl textChunk; inr "stream reset"; inl sampleChunk] (inr "unused"))
         TextToImage (post "a cat"))
      500 (operation TextToImage +:+ " error: " +:+ "stream reset")
  ∧ logLines
      (trace
         (serve MainGo
            (bodyEnv [inl textChunk; inr "stream reset"; inl sampleChunk] (inr "unused"))
            TextToImage (post "a cat")))
    = [logPrefix TextToImage +:+ "stream reset"].
Proof.
  apply (stream_error_ends_generation
           (bodyEnv [inl textChunk; inr "stream reset"; inl sampleChunk] (inr "unused"))
           TextToImage (post "a cat") (OfText {| Prompt := "a cat" |})
           [inl textChunk] [inl sampleChunk] "stream reset").
  - repeat split; reflexivity.
  - reflexivity.
  - repeat constructor. exists textChunk. split; [reflexivity |].
    intros candidate content [= <-] [= <-]. repeat constructor.
Defined.

(** X7: in main.go only the first candidate of a chunk is looked at: the
    result of reading a stream is the same once every other candidate is
    dropped, so an image carried by a later candidate is never served. *)
Theorem later_candidates_ignored (items : list (genai.GenerateContentResponse + error)) :
  Main.firstImage (firstCandidateOnly <$> items) = Main.firstImage items.
Proof.
  induction items as [|[result|err] items IH]; [done | | done].
  cbn [fmap list_fmap firstCandidateOnly Main.firstImage genai.Candidates].
  destruct (genai.Candidates result) as [|candidate cs]; [apply IH |].
  destruct (genai.Candidate_Content candidate) as [content|]; [| apply IH].
  destruct (genai.Parts content) as [|part parts]; [apply IH |].
  destruct (Main.firstInline (part :: parts)); [done | apply IH].
Qed.

Example image_in_second_candidate :
  Main.firstImage
    [inl {| genai.Candidates :=
              {| genai.Candidate_Content := None |} :: genai.Candidates sampleChunk |}]
  = inr "no image returned".
Proof. reflexivity. Qed.
(** ** Line breaks and padding in an image field *)

Lemma skipNewlines_strip s :
  match base64.skipNewlines s with
  | EmptyString => strip s = EmptyString
  | String c rest => base64.isNewline c = false ∧ strip s = String c (strip rest)
  end.
Proof.
  induction s as [|a s IH]; simpl; [done |].
  destruct (base64.isNewline a) eqn:E; [done |]. simpl. by rewrite E.
Qed.

Lemma skipNewlines_of_strip s : base64.skipNewlines (strip s) = strip s.
Proof.
  induction s as [|a s IH]; simpl; [done |].
  destruct (base64.isNewline a) eqn:E; [done |]. simpl. by rewrite E.
Qed.

Lemma padded_strip enc rest dbuf :
  base64.padded enc (strip rest) dbuf = base64.padded enc rest dbuf.
Proof.
  unfold base64.padded. rewrite skipNewlines_of_strip.
  pose proof (skipNewlines_strip rest) as H.
  destruct (base64.skipNewlines rest) as [|c rest'].
  - by rewrite H.
  - destruct H as [_ ->]. rewrite skipNewlines_of_strip.
    pose proof (skipNewlines_strip rest') as H'.
    destruct (base64.skipNewlines rest') as [|c' rest''].
    + by rewrite H'.
    + destruct H' as [_ ->]. done.
Qed.

Lemma decodeFrom_strip enc s :
  separated enc →
  ∀ dbuf, base64.decodeFrom enc (strip s) dbuf = base64.decodeFrom enc s dbuf.
Proof.
  intros [Hnl _]. induction s as [|a s IH]; intros dbuf; [done |].
  cbn [strip]. destruct (base64.isNewline a) eqn:En.
  - cbn [base64.decodeFrom]. rewrite (proj1 (Hnl a En)), En. simpl. apply IH.
  - cbn [base64.decodeFrom]. rewrite En.
    destruct (negb (base64.decodeMap enc a =? 255)).
    + destruct (length (dbuf ++ [base64.decodeMap enc a]) =? 4)%nat;
        by rewrite IH.
    + destruct (base64.isPad enc a); [apply padded_strip | done].
Qed.

Lemma base64Fails_strip s : base64Fails (strip s) = base64Fails s.
Proof.
  unfold base64Fails, base64.DecodeString.
  by rewrite (decodeFrom_strip _ s std_separated).
Qed.

Lemma strip_allNewlines s : allNewlines s → strip s = EmptyString.
Proof.
  unfold allNewlines. induction s as [|a s IH]; simpl; [done |]. intros H.
  rewrite (H a) by (by rewrite Ascii.eqb_refl).
  apply IH. intros c Hc. apply H. rewrite Hc. apply orb_true_r.
Qed.

Lemma fieldRejection_setImage img img' q :
  imageOf q = Some img → isEmpty img' = isEmpty img →
  fieldRejection (setImage img' q) = fieldRejection q.
Proof. destruct q as [q|q|q|q]; simpl; try done; by intros [= ->] ->. Qed.

Lemma imageOf_setImage img img' q :
  imageOf q = Some img → imageOf (setImage img' q) = Some img'.
Proof. by destruct q. Qed.

Lemma valid_image_nonempty env ep r q img :
  validRequest env ep r q → imageOf q = Some img → isEmpty img = false.
Proof.
  intros (_ & _ & Hr) Hi. unfold rejection in Hr.
  destruct q as [q|q|q|q]; simpl in *; try done; injection Hi as <-.
  - by destruct (isEmpty (Resize_ImageBase64 q)).
  - by destruct (isEmpty (Sketch_ImageBase64 q)).
  - by destruct (isEmpty (Eraser_ImageBase64 q)).
Qed.

Lemma valid_image_decodes env ep r q img :
  validRequest env ep r q → imageOf q = Some img → base64Fails img = false.
Proof.
  intros (_ & _ & Hr) Hi. unfold rejection in Hr. rewrite Hi in Hr.
  destruct (fieldRejection q); [done |]. by destruct (base64Fails img).
Qed.

(** X8: line breaks in the image field do not count.  A request whose
    image field differs from that of a valid request by CR and LF only,
    and is not empty, is served the same response with the same trace. *)
Theorem line_breaks_ignored (v : variant) (env : Env) (ep : endpoint)
    (r r' : http.Request) (q : payload) (img img' : string) :
  validRequest env ep r q →
  imageOf q = Some img →
  http.Method r' = http.MethodPost →
  decodeAt env ep (http.Body r') = Some (setImage img' q) →
  img' ≠ EmptyString →
  strip img' = strip img →
  validRequest env ep r' (setImage img' q)
  ∧ serve v env ep r' = serve v env ep r.
Proof.
  intros Hv Hi Hm Hd Hne Hs.
  assert (Hv' : validRequest env ep r' (setImage img' q)).
  { split; [done |]. split; [done |].
    pose proof (valid_image_nonempty env ep r q img Hv Hi) as He.
    pose proof (valid_image_decodes env ep r q img Hv Hi) as Hb.
    apply isEmpty_false in Hne.
    unfold rejection.
    rewrite (fieldRejection_setImage img img' q Hi) by congruence.
    rewrite (imageOf_setImage img img' q Hi).
    destruct Hv as (_ & _ & Hr). unfold rejection in Hr. rewrite Hi in Hr.
    destruct (fieldRejection q); [done |].
    by rewrite <- (base64Fails_strip img'), Hs, base64Fails_strip, Hb. }
  split; [done |].
  rewrite (serve_forwarded v env ep r q Hv), (serve_forwarded v env ep r' _ Hv').
  by rewrite promptFor_setImage.
Qed.

(** X9: an image field made of line breaks only passes validation.  It is
    not empty and decodes to zero bytes, so /magic-eraser calls the
    generation API for it. *)
Theorem blank_image_is_forwarded (v : variant) (env : Env) (r : http.Request)
    (q : MagicEraserRequest) :
  http.Method r = http.MethodPost →
  decodeMagicEraser env (http.Body r) = Some q →
  Eraser_ImageBase64 q ≠ EmptyString →
  allNewlines (Eraser_ImageBase64 q) →
  base64.DecodeString base64.StdEncoding (Eraser_ImageBase64 q) = Some []
  ∧ upstreamCalls (serve v env MagicEraser r)
    = [upstreamCall v (promptFor v (OfEraser q))].
Proof.
  intros Hm Hd Hne Hall.
  assert (Hdec : base64.DecodeString base64.StdEncoding (Eraser_ImageBase64 q) = Some []).
  { unfold base64.DecodeString.
    rewrite <- (decodeFrom_strip _ _ std_separated).
    by rewrite (strip_allNewlines _ Hall). }
  split; [done |]. apply forwarded_calls.
  split; [done |]. split; [unfold decodeAt; by rewrite Hd |].
  unfold rejection, base64Fails. simpl.
  apply isEmpty_false in Hne. by rewrite Hne, Hdec.
Qed.
Lemma line_breaks_ignored_witness :
  validRequest (bodyEnv [inl sampleChunk] (inl sampleImages)) MagicEraser
    (post ("aGVs" +:+ String "010"%char "bG8="))
    (setImage ("aGVs" +:+ String "010"%char "bG8=")
       (OfEraser {| Eraser_ImageBase64 := "aGVsbG8=" |}))
  ∧ serve Part000 (bodyEnv [inl sampleChunk] (inl sampleImages)) MagicEraser
      (post ("aGVs" +:+ String "010"%char "bG8="))
    = serve Part000 (bodyEnv [inl sampleChunk] (inl sampleImages)) MagicEraser
        (post "aGVsbG8=").
Proof.
  apply (line_breaks_ignored Part000 (bodyEnv [inl sampleChunk] (inl sampleImages))
           MagicEraser (post "aGVsbG8=") (post ("aGVs" +:+ String "010"%char "bG8="))
           (OfEraser {| Eraser_ImageBase64 := "aGVsbG8=" |}) "aGVsbG8="
           ("aGVs" +:+ String "010"%char "bG8=")).
  - repeat split; reflexivity.
  - reflexivity.
  - reflexivity.
  - reflexivity.
  - vm_compute. discriminate.
  - reflexivity.
Defined.

Lemma blank_image_is_forwarded_witness :
  base64.DecodeString base64.StdEncoding
    (Eraser_ImageBase64 {| Eraser_ImageBase64 := String "010"%char EmptyString |})
  = Some []
  ∧ upstreamCalls
      (serve MainGo (bodyEnv [inl sampleChunk] (inl sampleImages)) MagicEraser
         (post (String "010"%char EmptyString)))
    = [upstreamCall MainGo
         (promptFor MainGo
            (OfEraser {| Eraser_ImageBase64 := String "010"%char EmptyString |}))].
Proof.
  apply (blank_image_is_forwarded MainGo (bodyEnv [inl sampleChunk] (inl sampleImages))
           (post (String "010"%char EmptyString))
           {| Eraser_ImageBase64 := String "010"%char EmptyString |}).
  - reflexivity.
  - reflexivity.
  - vm_compute. discriminate.
  - intros c H. cbn [occurs Eraser_ImageBase64] in H. rewrite orb_false_r in H.
    apply Ascii.eqb_eq in H. subst c. reflexivity.
Defined.

(** A string that decodes under a padded encoding never has one alphabet
    character more than a whole number of quanta. *)
Lemma decodeFrom_not_one enc s :
  is_Some (base64.padChar enc) → separated enc →
  ∀ dbuf b, (length dbuf < 4)%nat →
    base64.decodeFrom enc s dbuf = Some b →
    ((length dbuf + digits enc s) `mod` 4 ≠ 1)%nat.
Proof.
  intros [p Hp] Hsep. pose proof Hsep as [Hnl Hpad].
  induction s as [|a s IH]; intros dbuf b Hlen; cbn [base64.decodeFrom].
  - rewrite Hp. by destruct dbuf as [|? [|? ?]].
  - unfold digits. cbn [count]. fold (digits enc s).
    destruct (negb (base64.decodeMap enc a =? 255)) eqn:Ed.
    + set (dbuf' := dbuf ++ [base64.decodeMap enc a]).
      assert (Hl : length dbuf' = S (length dbuf)).
      { unfold dbuf'. rewrite length_app. simpl. lia. }
      destruct (Nat.eqb_spec (length dbuf') 4) as [E4|E4].
      * destruct (base64.quantum enc dbuf'); [|done].
        destruct (base64.decodeFrom enc s []) as [bs|] eqn:Es; [|done].
        intros _. pose proof (IH [] bs ltac:(simpl; lia) Es) as H.
        replace (length dbuf + (1 + digits enc s))%nat
          with (length [] (A := Z) + digits enc s + 1 * 4)%nat by (simpl; lia).
        by rewrite Nat.Div0.mod_add.
      * intros H. pose proof (IH dbuf' b ltac:(lia) H) as H'.
        by replace (length dbuf + (1 + digits enc s))%nat
          with (length dbuf' + digits enc s)%nat by lia.
    + destruct (base64.isNewline a) eqn:En; [by apply IH |].
      destruct (base64.isPad enc a) eqn:Ea; [|done].
      intros H. destruct (padded_counts enc s dbuf b Hsep Hlen H) as [Hd Hq].
      rewrite Hd. cbn [Nat.add]. rewrite Nat.add_0_r.
      unfold requiredPadding in Hq.
      destruct (length dbuf) as [|[|[|[|n]]]]; simpl in *; lia.
Qed.

Lemma called_is_valid v env ep r q :
  decodeAt env ep (http.Body r) = Some q →
  upstreamCalls (serve v env ep r) ≠ [] →
  validRequest env ep r q.
Proof.
  rewrite serve_relay. unfold relay, validRequest, upstreamCalls.
  destruct (String.eqb_spec (http.Method r) http.MethodPost) as [Hm|Hm]; simpl; [|done].
  intros ->. by destruct (rejection q).
Qed.

(** X10: what an image field must look like to reach the generation API.
    When a request leads to a call, its image field is not empty, holds
    only characters of the standard alphabet, [=], CR and LF, has exactly
    the padding its alphabet characters ask for, and these are never one
    more than a multiple of four. *)
Theorem forwarded_image_is_well_formed (v : variant) (env : Env) (ep : endpoint)
    (r : http.Request) (q : payload) (img : string) :
  decodeAt env ep (http.Body r) = Some q →
  imageOf q = Some img →
  upstreamCalls (serve v env ep r) ≠ [] →
  img ≠ EmptyString
  ∧ (∀ c, occurs c img = true →
       base64.decodeMap base64.StdEncoding c ≠ 255
       ∨ base64.isNewline c = true ∨ c = "="%char)
  ∧ pads base64.StdEncoding img = requiredPadding (digits base64.StdEncoding img)
  ∧ (digits base64.StdEncoding img `mod` 4 ≠ 1)%nat.
Proof.
  intros Hd Hi Hc. pose proof (called_is_valid v env ep r q Hd Hc) as Hv.
  pose proof (valid_image_nonempty env ep r q img Hv Hi) as He.
  pose proof (valid_image_decodes env ep r q img Hv Hi) as Hb.
  unfold base64Fails, base64.DecodeString in Hb.
  destruct (base64.decodeFrom base64.StdEncoding img []) as [b|] eqn:E; [|done].
  split; [by apply isEmpty_false |]. split; [| split].
  - intros c Ho.
    destruct (Z.eq_dec (base64.decodeMap base64.StdEncoding c) 255) as [Hm|]; [| by left].
    destruct (base64.isNewline c) eqn:En; [by right; left |].
    destruct (Ascii.eqb_spec c "="%char) as [|Hp]; [by right; right |].
    exfalso.
    assert (Hf : foreign base64.StdEncoding c).
    { split; [done |]. split; [done |]. by apply Ascii.eqb_neq. }
    by rewrite (decodeFrom_foreign _ c img Hf Ho []) in E.
  - apply (decodeFrom_padding base64.StdEncoding img) with (dbuf := []) (b := b);
      [by eexists | apply std_separated | simpl; lia | done].
  - apply (decodeFrom_not_one base64.StdEncoding img) with (dbuf := []) (b := b);
      [by eexists | apply std_separated | simpl; lia | done].
Qed.

Lemma forwarded_image_is_well_formed_witness :
  "aGVsbG8=" ≠ EmptyString
  ∧ (∀ c, occurs c "aGVsbG8=" = true →
       base64.decodeMap base64.StdEncoding c ≠ 255
       ∨ base64.isNewline c = true ∨ c = "="%char)
  ∧ pads base64.StdEncoding "aGVsbG8="
    = requiredPadding (digits base64.StdEncoding "aGVsbG8=")
  ∧ (digits base64.StdEncoding "aGVsbG8=" `mod` 4 ≠ 1)%nat.
Proof.
  apply (forwarded_image_is_well_formed MainGo
           (bodyEnv [inl sampleChunk] (inl sampleImages)) Resize (post "aGVsbG8=")
           (OfResize {| Resize_ImageBase64 := "aGVsbG8="; Scale := 2 |}) "aGVsbG8=").
  - reflexivity.
  - reflexivity.
  - vm_compute. discriminate.
Defined.
(** ** Startup *)

(** X11: when the server starts.  main.go reaches [ListenAndServe] exactly
    when GOOGLE_API_KEY is not empty and the client is made without error;
    the other variant does not read the key and starts whenever the client
    is made.  Both then serve the same four routes on [:PORT], or on
    [:8080] when PORT is empty. *)
Theorem server_starts_iff (p : Process) :
  ((∃ routes server, result (MainProcess.main p) = ListenAndServe routes server) ↔
     Getenv p "GOOGLE_API_KEY" ≠ EmptyString ∧ NewClient p = None)
  ∧ ((∃ routes server, result (VariantProcess.main p) = ListenAndServe routes server) ↔
     NewClient p = None)
  ∧ (∀ routes server,
       result (MainProcess.main p) = ListenAndServe routes server
       ∨ result (VariantProcess.main p) = ListenAndServe routes server →
       routes = registered
       ∧ Addr server
         = ":" +:+ (if isEmpty (Getenv p "PORT") then "8080" else Getenv p "PORT")).
Proof.
  split; [| split].
  - unfold MainProcess.main.
    destruct (isEmpty (Getenv p "GOOGLE_API_KEY")) eqn:Ek.
    + apply isEmpty_true in Ek. split; [by intros (? & ? & ?) | by intros [? _]].
    + apply isEmpty_false in Ek. destruct (NewClient p) as [err|]; simpl.
      * split; [by intros (? & ? & ?) | by intros [_ ?]].
      * split; [done | intros _; by eexists _, _].
  - unfold VariantProcess.main. destruct (NewClient p) as [err|]; simpl.
    + split; [by intros (? & ? & ?) | done].
    + split; [done | intros _; by eexists _, _].
  - intros routes server [H|H].
    + unfold MainProcess.main in H.
      destruct (isEmpty (Getenv p "GOOGLE_API_KEY")); [done |].
      destruct (NewClient p); [done |]. simpl in H. by injection H as <- <-.
    + unfold VariantProcess.main in H.
      destruct (NewClient p); [done |]. simpl in H. by injection H as <- <-.
Qed.

Lemma wrap64_mebibytes mb :
  - 2 ^ 43 <= mb < 2 ^ 43 → wrap64 (wrap64 (mb * 1024) * 1024) = mb * 1048576.
Proof.
  intros H. unfold wrap64.
  rewrite (Z.mod_small (mb * 1024 + 2 ^ 63)) by lia.
  replace (mb * 1024 + 2 ^ 63 - 2 ^ 63) with (mb * 1024) by lia.
  rewrite Z.mod_small by lia. lia.
Qed.

(** X12: the body limit of main.go.  When MAX_BODY_SIZE_MB reads as an
    integer [mb] of absolute value below 2^43, the server limits request
    bodies to [mb] times 1048576 bytes and the startup log shows [mb]; the
    value is not checked, so zero and negative numbers are taken as they
    are. *)
Theorem body_limit_from_env (p : Process) (mb : Z) :
  Getenv p "GOOGLE_API_KEY" ≠ EmptyString →
  NewClient p = None →
  Getenv p "MAX_BODY_SIZE_MB" ≠ EmptyString →
  Sscanf_d p (Getenv p "MAX_BODY_SIZE_MB") = Some mb →
  - 2 ^ 43 <= mb < 2 ^ 43 →
  ∃ server,
    result (MainProcess.main p) = ListenAndServe registered server
    ∧ MaxBytes server = Some (mb * 1048576)
    ∧ last (logged (MainProcess.main p))
      = Some ("API listening on :"
              +:+ (if isEmpty (Getenv p "PORT") then "8080" else Getenv p "PORT")
              +:+ " (Max body size: " +:+ fmt.decimal mb +:+ " MB)").
Proof.
  intros Hk Hc He Hs Hr. apply isEmpty_false in Hk, He.
  assert (Hsize : MainProcess.maxBodySize p = mb * 1048576).
  { unfold MainProcess.maxBodySize. rewrite He, Hs. simpl negb. cbv iota.
    by apply wrap64_mebibytes. }
  unfold MainProcess.main. rewrite Hk, Hc, Hsize.
  eexists. split; [reflexivity |]. split; [reflexivity |].
  cbn [logged]. rewrite last_snoc. f_equal.
  replace (Z.quot (mb * 1048576) (1024 * 1024)) with mb.
  - reflexivity.
  - change (1024 * 1024) with 1048576. symmetry. apply Z.quot_mul. lia.
Qed.

Lemma body_limit_from_env_witness :
  ∃ server,
    result (MainProcess.main (sampleProcess "key" EmptyString "-1" (Some (-1))))
    = ListenAndServe registered server
    ∧ MaxBytes server = Some (-1 * 1048576)
    ∧ last (logged (MainProcess.main (sampleProcess "key" EmptyString "-1" (Some (-1)))))
      = Some ("API listening on :"
              +:+ (if isEmpty (Getenv (sampleProcess "key" EmptyString "-1" (Some (-1))) "PORT")
                   then "8080"
                   else Getenv (sampleProcess "key" EmptyString "-1" (Some (-1))) "PORT")
              +:+ " (Max body size: " +:+ fmt.decimal (-1) +:+ " MB)").
Proof.
  apply (body_limit_from_env (sampleProcess "key" EmptyString "-1" (Some (-1))) (-1)).
  - vm_compute. discriminate.
  - reflexivity.
  - vm_compute. discriminate.
  - reflexivity.
  - lia.
Defined.

(** Past 2^43 the product wraps: 2^43 megabytes give a negative limit. *)
Example body_limit_overflow :
  MainProcess.maxBodySize (sampleProcess "key" EmptyString "8796093022208" (Some (2 ^ 43)))
  = - 2 ^ 63.
Proof. reflexivity. Qed.

(** Unset, or not a number, the limit is 100 MB. *)
Example body_limit_default :
  MainProcess.maxBodySize (sampleProcess "key" EmptyString EmptyString None) = 104857600
  ∧ MainProcess.maxBodySize (sampleProcess "key" EmptyString "lots" None) = 104857600.
Proof. split; reflexivity. Qed.
